(** * urban-backend: a shallow embedding of [main.py]

    The service keeps two module-level Python lists, [users_db] and
    [reports_db], whose elements are the dictionaries produced by pydantic's
    [.dict()].  Handlers scan these lists, raise [HTTPException]s, and build
    pydantic response models.  The embedding below follows the source
    function by function: Python dictionaries are finite maps, exceptions
    are an explicit error type, and each mutating handler returns its result
    together with the new store. *)

From Stdlib Require Import ssreflect ZArith Ascii String.
From stdpp Require Import gmap strings list fin_maps.

Local Open Scope string_scope.
Local Open Scope Z_scope.

(** ** Python values, exceptions *)

(** The values stored in the record dictionaries: every field of [User] and
    [Report] is a [str] or, for the [Optional] ones, [None]. *)
Inductive pyval : Type :=
  | PNone
  | PStr (s : string).

#[global] Instance pyval_eq_dec : EqDecision pyval.
Proof. solve_decision. Defined.

Inductive exn : Type :=
  | HTTPException (status_code : Z) (detail : string)
  | KeyError (key : pyval)
  | ValidationError (model : string)
  | ResponseValidationError (model : string).

#[global] Instance exn_eq_dec : EqDecision exn.
Proof. solve_decision. Defined.

Inductive result (A : Type) : Type :=
  | Ok (a : A)
  | Raise (e : exn).
Arguments Ok {A} a.
Arguments Raise {A} e.

Definition bind {A B} (m : result A) (k : A -> result B) : result B :=
  match m with
  | Ok a => k a
  | Raise e => Raise e
  end.

Notation "'let*' x ':=' m 'in' k" := (bind m (fun x => k))
  (at level 10, x name, m at level 100, k at level 200).

Definition is_ok {A} (m : result A) : bool :=
  match m with Ok _ => true | Raise _ => false end.

(** ** Python dictionary and iteration primitives *)

(** [d[k]]: raises [KeyError] when the key is absent. *)
Definition getitem (d : gmap string pyval) (k : string) : result pyval :=
  match d !! k with
  | Some v => Ok v
  | None => Raise (KeyError (PStr k))
  end.

(** [d.get(k, dflt)]: the default only replaces an absent key, a key that is
    present with value [None] yields [None]. *)
Definition get (d : gmap string pyval) (k : string) (dflt : pyval) : pyval :=
  default dflt (d !! k).

(** [v == w] on stored values. *)
Definition py_eq (v w : pyval) : bool := bool_decide (v = w).

(** Truthiness of an [Optional[str]]: [None] and the empty string are falsy. *)
Definition truthy (o : option string) : bool :=
  match o with
  | None => false
  | Some s => negb (String.eqb s "")
  end.

(** [any(p(x) for x in l)]: stops at the first element for which [p] holds,
    so an exception in a later element is never raised. *)
Fixpoint py_any {A} (p : A -> result bool) (l : list A) : result bool :=
  match l with
  | [] => Ok false
  | x :: l' => let* b := p x in if b then Ok true else py_any p l'
  end.

(** [next((x for x in l if p(x)), None)]. *)
Fixpoint py_next {A} (p : A -> result bool) (l : list A) : result (option A) :=
  match l with
  | [] => Ok None
  | x :: l' => let* b := p x in if b then Ok (Some x) else py_next p l'
  end.

(** [[x for x in l if p(x)]]. *)
Fixpoint py_filter {A} (p : A -> result bool) (l : list A) : result (list A) :=
  match l with
  | [] => Ok []
  | x :: l' =>
      let* b := p x in
      let* r := py_filter p l' in
      Ok (if b then x :: r else r)
  end.

(** [[f(index, x) for index, x in enumerate(l)]], with [index] starting at
    [start]. *)
Fixpoint py_map_enum {A B} (f : Z -> A -> result B) (start : Z) (l : list A)
  : result (list B) :=
  match l with
  | [] => Ok []
  | x :: l' =>
      let* y := f start x in
      let* r := py_map_enum f (start + 1) l' in
      Ok (y :: r)
  end.

(** [[f(x) for x in l]]. *)
Fixpoint py_map {A B} (f : A -> result B) (l : list A) : result (list B) :=
  match l with
  | [] => Ok []
  | x :: l' =>
      let* y := f x in
      let* r := py_map f l' in
      Ok (y :: r)
  end.

(** [sum(1 for x in l if p(x))]. *)
Definition py_count {A} (p : A -> bool) (l : list A) : Z :=
  Z.of_nat (length (filter (fun x => p x = true) l)).

(** A pydantic field annotated [str]: a string is kept, [None] is rejected
    with the model's [ValidationError]. *)
Definition str_field (model : string) (v : pyval) : result string :=
  match v with
  | PStr s => Ok s
  | PNone => Raise (ValidationError model)
  end.

(** ** Request and response models *)

Module User.
Record t : Type := mk {
  name : string;
  email : string;
  password : string;
  role : string;
  phone : string;
  location : string
}.

(** [user.dict()] *)
Definition dict (u : t) : gmap string pyval :=
  <["name" := PStr (name u)]>
  (<["email" := PStr (email u)]>
  (<["password" := PStr (password u)]>
  (<["role" := PStr (role u)]>
  (<["phone" := PStr (phone u)]>
  (<["location" := PStr (location u)]> ∅))))).
End User.

Module UserLogin.
Record t : Type := mk {
  email : string;
  password : string
}.
End UserLogin.

Definition opt_val (o : option string) : pyval :=
  match o with
  | Some s => PStr s
  | None => PNone
  end.

Module Report.
Record t : Type := mk {
  email : string;
  type : string;
  category : option string;
  issue : string;
  description : string;
  location : string;
  photo : option string;
  alertLevel : option string
}.

(** [report.dict()]: all eight declared fields are keys of the dictionary,
    the optional ones with value [None] when they were not supplied.
    There is no [seriousness], [status] or [date] key. *)
Definition dict (r : t) : gmap string pyval :=
  <["email" := PStr (email r)]>
  (<["type" := PStr (type r)]>
  (<["category" := opt_val (category r)]>
  (<["issue" := PStr (issue r)]>
  (<["description" := PStr (description r)]>
  (<["location" := PStr (location r)]>
  (<["photo" := opt_val (photo r)]>
  (<["alertLevel" := opt_val (alertLevel r)]> ∅))))))).
End Report.

Module ReportOut.
Record t : Type := mk {
  id : Z;
  title : string;
  category : string;
  location : string;
  seriousness : string;
  description : string
}.
End ReportOut.

Module UserStats.
Record t : Type := mk {
  totalReports : Z;
  resolvedReports : Z;
  unresolvedReports : Z
}.
End UserStats.

Module ReportHistoryItem.
Record t : Type := mk {
  id : Z;
  title : string;
  category : string;
  status : string
}.

(** The model constructor, validating the three [str] fields. *)
Definition new (id_ : Z) (title_ category_ status_ : pyval) : result t :=
  let* ti := str_field "ReportHistoryItem" title_ in
  let* c := str_field "ReportHistoryItem" category_ in
  let* s := str_field "ReportHistoryItem" status_ in
  Ok (mk id_ ti c s).
End ReportHistoryItem.

Module UserDashboardResponse.
Record t : Type := mk {
  userStats : UserStats.t;
  reportHistory : list ReportHistoryItem.t;
  notifications : list string
}.
End UserDashboardResponse.

Module GlobalStats.
Record t : Type := mk {
  totalReports : Z;
  resolvedReports : Z;
  unresolvedReports : Z;
  highPriorityReports : Z
}.
End GlobalStats.

Module IssueByCategory.
Record t : Type := mk {
  category : string;
  count : Z
}.

Definition new (category_ : pyval) (count_ : Z) : result t :=
  let* c := str_field "IssueByCategory" category_ in
  Ok (mk c count_).
End IssueByCategory.

Module IssueBySeriousness.
Record t : Type := mk {
  seriousness : string;
  count : Z
}.

Definition new (seriousness_ : pyval) (count_ : Z) : result t :=
  let* s := str_field "IssueBySeriousness" seriousness_ in
  Ok (mk s count_).
End IssueBySeriousness.

Module IssueManagementItem.
Record t : Type := mk {
  id : Z;
  title : string;
  category : string;
  date : string;
  seriousness : string;
  status : string
}.

Definition new (id_ : Z) (title_ category_ date_ seriousness_ status_ : pyval)
  : result t :=
  let* ti := str_field "IssueManagementItem" title_ in
  let* c := str_field "IssueManagementItem" category_ in
  let* d := str_field "IssueManagementItem" date_ in
  let* se := str_field "IssueManagementItem" seriousness_ in
  let* st := str_field "IssueManagementItem" status_ in
  Ok (mk id_ ti c d se st).
End IssueManagementItem.

Module AuthorityDashboardResponse.
Record t : Type := mk {
  globalStats : GlobalStats.t;
  issuesByCategory : list IssueByCategory.t;
  issuesBySeriousness : list IssueBySeriousness.t;
  issueList : list IssueManagementItem.t
}.
End AuthorityDashboardResponse.

(** ** The in-memory store *)

Record db : Type := mkdb {
  users_db : list (gmap string pyval);
  reports_db : list (gmap string pyval)
}.

Definition init_db : db := mkdb [] [].

(** The error taxonomy of the handlers. *)
Definition Conflict : exn :=
  HTTPException 400 "User with this email already exists".
Definition Unauthorized : exn :=
  HTTPException 401 "Invalid email or password".
Definition NotFound : exn :=
  HTTPException 404 "User not found".
Definition BadRequest_category : exn :=
  HTTPException 400 "Category is required for authority reports".
Definition BadRequest_alertLevel : exn :=
  HTTPException 400 "Alert level is required for community alerts".

(** [u['email'] == email] *)
Definition email_is (email : string) (u : gmap string pyval) : result bool :=
  let* v := getitem u "email" in
  Ok (py_eq v (PStr email)).

(** ** POST /register *)

Definition register_user (user : User.t) (st : db) : result string * db :=
  match py_any (email_is (User.email user)) (users_db st) with
  | Raise e => (Raise e, st)
  | Ok true => (Raise Conflict, st)
  | Ok false =>
      (Ok "User registered successfully",
       mkdb (users_db st ++ [User.dict user]) (reports_db st))
  end.

(** ** POST /login *)

Module LoginResponse.
Record t : Type := mk {
  message : string;
  user : gmap string pyval
}.
End LoginResponse.

Definition login_user (user : UserLogin.t) (st : db) : result LoginResponse.t :=
  let* found_user := py_next (email_is (UserLogin.email user)) (users_db st) in
  match found_user with
  | None => Raise Unauthorized
  | Some found_user =>
      (* [not found_user]: an empty dictionary is falsy *)
      if bool_decide (found_user = ∅) then Raise Unauthorized
      else
        let* pw := getitem found_user "password" in
        if negb (py_eq pw (PStr (UserLogin.password user)))
        then Raise Unauthorized
        else
          let* n := getitem found_user "name" in
          let* e := getitem found_user "email" in
          let* r := getitem found_user "role" in
          let* l := getitem found_user "location" in
          Ok (LoginResponse.mk "Login successful"
                (<["name" := n]> (<["email" := e]>
                 (<["role" := r]> (<["location" := l]> ∅)))))
  end.

(** ** POST /report *)

Definition submit_report (report : Report.t) (st : db) : result string * db :=
  match py_any (email_is (Report.email report)) (users_db st) with
  | Raise e => (Raise e, st)
  | Ok false => (Raise NotFound, st)
  | Ok true =>
      if String.eqb (Report.type report) "authority"
         && negb (truthy (Report.category report))
      then (Raise BadRequest_category, st)
      else if String.eqb (Report.type report) "community"
              && negb (truthy (Report.alertLevel report))
      then (Raise BadRequest_alertLevel, st)
      else
        (Ok "Report submitted successfully",
         mkdb (users_db st) (reports_db st ++ [Report.dict report]))
  end.

(** ** GET /reports *)

(** The dictionaries built by the handler, before FastAPI checks them
    against [response_model=List[ReportOut]]. *)
Module IssueData.
Record t : Type := mk {
  id : Z;
  title : pyval;
  category : pyval;
  location : pyval;
  seriousness : pyval;
  description : pyval
}.
End IssueData.

Definition issues_datum (index : Z) (report : gmap string pyval)
  : result IssueData.t :=
  let* title := getitem report "issue" in
  let* category := getitem report "category" in
  let* location := getitem report "location" in
  let seriousness := get report "seriousness" (PStr "Moderate") in
  let* description := getitem report "description" in
  Ok (IssueData.mk (index + 1) title category location seriousness description).

(** The body of the handler function. *)
Definition issues_data (st : db) : result (list IssueData.t) :=
  py_map_enum issues_datum 0 (reports_db st).

(** Validation of one returned dictionary against [ReportOut]. *)
Definition ReportOut_validate (d : IssueData.t) : result ReportOut.t :=
  let* ti := str_field "ReportOut" (IssueData.title d) in
  let* c := str_field "ReportOut" (IssueData.category d) in
  let* l := str_field "ReportOut" (IssueData.location d) in
  let* se := str_field "ReportOut" (IssueData.seriousness d) in
  let* de := str_field "ReportOut" (IssueData.description d) in
  Ok (ReportOut.mk (IssueData.id d) ti c l se de).

(** [response_model=List[ReportOut]]: the returned list is serialised only
    if every element validates. *)
Definition response_model_ReportOut (l : list IssueData.t)
  : result (list ReportOut.t) :=
  match py_map ReportOut_validate l with
  | Ok r => Ok r
  | Raise _ => Raise (ResponseValidationError "ReportOut")
  end.

(** The endpoint: handler body followed by response validation. *)
Definition get_all_reports (st : db) : result (list ReportOut.t) :=
  let* data := issues_data st in
  response_model_ReportOut data.

(** ** GET /user-dashboard *)

Definition is_resolved (report : gmap string pyval) : bool :=
  py_eq (get report "status" PNone) (PStr "Resolved").

(** [str(v)] as used by an f-string. *)
Definition py_str (v : pyval) : string :=
  match v with
  | PStr s => s
  | PNone => "None"
  end.

Definition report_history_item (index : Z) (report : gmap string pyval)
  : result ReportHistoryItem.t :=
  let* title := getitem report "issue" in
  let* category := getitem report "category" in
  let status := get report "status" (PStr "Unresolved") in
  ReportHistoryItem.new (index + 1) title category status.

Definition notification (report : gmap string pyval) : result string :=
  let* issue := getitem report "issue" in
  Ok ("Your report '" +:+ py_str issue +:+ "' has been marked as resolved.").

Definition get_user_dashboard (email : string) (st : db)
  : result UserDashboardResponse.t :=
  let* user_reports := py_filter (email_is email) (reports_db st) in
  let total_reports := Z.of_nat (length user_reports) in
  let resolved_reports := py_count is_resolved user_reports in
  let unresolved_reports := total_reports - resolved_reports in
  let user_stats :=
    UserStats.mk total_reports resolved_reports unresolved_reports in
  let* report_history := py_map_enum report_history_item 0 user_reports in
  let* notifications :=
    py_map notification (filter (fun r => is_resolved r = true) user_reports) in
  Ok (UserDashboardResponse.mk user_stats report_history notifications).

(** ** GET /authority-dashboard *)

(** A Python [dict] whose keys are stored values, kept as an association
    list because the handler iterates [.items()] in insertion order. *)
Fixpoint dict_get (d : list (pyval * Z)) (k : pyval) : option Z :=
  match d with
  | [] => None
  | (k', v) :: d' => if bool_decide (k' = k) then Some v else dict_get d' k
  end.

(** [d[k] = v]: an existing key keeps its position, a new key goes last. *)
Fixpoint dict_set (d : list (pyval * Z)) (k : pyval) (v : Z)
  : list (pyval * Z) :=
  match d with
  | [] => [(k, v)]
  | (k', v') :: d' =>
      if bool_decide (k' = k) then (k', v) :: d' else (k', v') :: dict_set d' k v
  end.

Definition is_high_priority (report : gmap string pyval) : bool :=
  let s := get report "seriousness" PNone in
  py_eq s (PStr "High") || py_eq s (PStr "Critical").

Definition global_stats (reports : list (gmap string pyval)) : GlobalStats.t :=
  let total_reports := Z.of_nat (length reports) in
  let resolved_reports := py_count is_resolved reports in
  let unresolved_reports := total_reports - resolved_reports in
  let high_priority_reports := py_count is_high_priority reports in
  GlobalStats.mk total_reports resolved_reports unresolved_reports
    high_priority_reports.

(** One iteration of the category loop. *)
Definition category_step (category_counts : list (pyval * Z))
    (report : gmap string pyval) : list (pyval * Z) :=
  let category := get report "category" (PStr "Other") in
  dict_set category_counts category
    (default 0 (dict_get category_counts category) + 1).

Definition category_counts (reports : list (gmap string pyval))
  : list (pyval * Z) :=
  fold_left category_step reports [].

Definition issues_by_category (reports : list (gmap string pyval))
  : result (list IssueByCategory.t) :=
  py_map (fun '(category, count) => IssueByCategory.new category count)
    (category_counts reports).

Definition seriousness_init : list (pyval * Z) :=
  [(PStr "Low", 0); (PStr "Moderate", 0); (PStr "High", 0);
   (PStr "Critical", 0)].

(** [seriousness_counts[seriousness] += 1] raises [KeyError] for a label
    that is not one of the four initial keys. *)
Fixpoint seriousness_loop (seriousness_counts : list (pyval * Z))
    (reports : list (gmap string pyval)) : result (list (pyval * Z)) :=
  match reports with
  | [] => Ok seriousness_counts
  | report :: rest =>
      let seriousness := get report "seriousness" (PStr "Moderate") in
      match dict_get seriousness_counts seriousness with
      | None => Raise (KeyError seriousness)
      | Some c =>
          seriousness_loop (dict_set seriousness_counts seriousness (c + 1))
            rest
      end
  end.

Definition issues_by_seriousness (reports : list (gmap string pyval))
  : result (list IssueBySeriousness.t) :=
  let* seriousness_counts := seriousness_loop seriousness_init reports in
  py_map (fun '(seriousness, count) => IssueBySeriousness.new seriousness count)
    seriousness_counts.

Definition issue_management_item (index : Z) (report : gmap string pyval)
  : result IssueManagementItem.t :=
  let* title := getitem report "issue" in
  let* category := getitem report "category" in
  let* date := getitem report "date" in
  let seriousness := get report "seriousness" (PStr "Moderate") in
  let status := get report "status" (PStr "Unresolved") in
  IssueManagementItem.new (index + 1) title category date seriousness status.

Definition issue_list (reports : list (gmap string pyval))
  : result (list IssueManagementItem.t) :=
  py_map_enum issue_management_item 0 reports.

Definition get_authority_dashboard (st : db)
  : result AuthorityDashboardResponse.t :=
  let stats := global_stats (reports_db st) in
  let* by_category := issues_by_category (reports_db st) in
  let* by_seriousness := issues_by_seriousness (reports_db st) in
  let* issues := issue_list (reports_db st) in
  Ok (AuthorityDashboardResponse.mk stats by_category by_seriousness issues).

(** ** Reachable stores *)

(** The stores the running service can hold: the two lists start empty and
    only [register_user] and [submit_report] modify them. *)
Inductive reachable : db -> Prop :=
  | reach_init : reachable init_db
  | reach_register user st :
      reachable st -> reachable (snd (register_user user st))
  | reach_report report st :
      reachable st -> reachable (snd (submit_report report st)).

(** ** POST /register, with the request body as FastAPI receives it *)

(** A required [str] field of a request body: missing or [null] is a
    validation error.  This is the whole check the [User] model performs on
    [email], which it declares as [str]. *)
Definition body_str (body : gmap string pyval) (k : string) : result string :=
  match body !! k with
  | Some (PStr s) => Ok s
  | _ => Raise (ValidationError "User")
  end.

Definition User_validate (body : gmap string pyval) : result User.t :=
  let* n := body_str body "name" in
  let* e := body_str body "email" in
  let* p := body_str body "password" in
  let* r := body_str body "role" in
  let* ph := body_str body "phone" in
  let* l := body_str body "location" in
  Ok (User.mk n e p r ph l).

Definition register_request (body : gmap string pyval) (st : db)
  : result string * db :=
  match User_validate body with
  | Raise e => (Raise e, st)
  | Ok user => register_user user st
  end.

(** Every address of the form local-part@domain contains an at sign. *)
Fixpoint has_at (s : string) : bool :=
  match s with
  | EmptyString => false
  | String c s' => Ascii.eqb c "@"%char || has_at s'
  end.

(** ** Well-formed stores *)

(** A user dictionary as [register_user] stores it. *)
Definition registered (d : gmap string pyval) : Prop :=
  exists u, d = User.dict u.

(** A report dictionary as [submit_report] stores it. *)
Definition submitted (d : gmap string pyval) : Prop :=
  exists r, d = Report.dict r.

Definition has_user (email : string) (st : db) : Prop :=
  exists d, d ∈ users_db st /\ d !! "email" = Some (PStr email).

(** ** Notions used by the statements *)

Definition has_email_key (d : gmap string pyval) : Prop :=
  is_Some (d !! "email").

Definition email_matches (email : string) (d : gmap string pyval) : bool :=
  bool_decide (d !! "email" = Some (PStr email)).

(** The submission contract, for a given reading [absent] of "the optional
    field is absent": the three failures leave the store untouched, every
    other submission appends exactly the submitted record. *)
Definition submit_report_contract (absent : option string -> Prop)
    (report : Report.t) (st : db) : Prop :=
  (~ has_user (Report.email report) st ->
     submit_report report st = (Raise NotFound, st)) /\
  (has_user (Report.email report) st ->
   Report.type report = "authority" -> absent (Report.category report) ->
     submit_report report st = (Raise BadRequest_category, st)) /\
  (has_user (Report.email report) st ->
   Report.type report = "community" -> absent (Report.alertLevel report) ->
     submit_report report st = (Raise BadRequest_alertLevel, st)) /\
  (has_user (Report.email report) st ->
   ~ (Report.type report = "authority" /\ absent (Report.category report)) ->
   ~ (Report.type report = "community" /\ absent (Report.alertLevel report)) ->
     submit_report report st =
       (Ok "Report submitted successfully",
        mkdb (users_db st) (reports_db st ++ [Report.dict report]))).

(** "Absent" read literally: the field was not supplied. *)
Definition not_supplied (o : option string) : Prop := o = None.

(** "Absent" as the handler tests it with [not report.category]: not
    supplied, or supplied as the empty string. *)
Definition falsy (o : option string) : Prop := truthy o = false.

(** The [user] part of a successful login response. *)
Definition login_view (d : gmap string pyval) (k : string) : option pyval :=
  if bool_decide (k ∈ ["name"; "email"; "role"; "location"])
  then d !! k else None.

(** The distinct keys of a list, each at the position of its first
    occurrence. *)
Fixpoint first_seen (ks : list pyval) : list pyval :=
  match ks with
  | [] => []
  | k :: ks' => k :: filter (fun k' => k' <> k) (first_seen ks')
  end.

Definition occurrences (k : pyval) (ks : list pyval) : Z :=
  py_count (py_eq k) ks.

(** One pair per distinct key in first-seen order, with the number of its
    occurrences. *)
Definition tally (ks : list pyval) : list (pyval * Z) :=
  map (fun k => (k, occurrences k ks)) (first_seen ks).

Definition category_label (report : gmap string pyval) : pyval :=
  get report "category" (PStr "Other").

Definition is_str (v : pyval) : bool :=
  match v with
  | PStr _ => true
  | PNone => false
  end.

Definition category_pair (p : pyval * Z) : IssueByCategory.t :=
  IssueByCategory.mk (py_str (fst p)) (snd p).

Definition seriousness_label (report : gmap string pyval) : pyval :=
  get report "seriousness" (PStr "Moderate").

Definition seriousness_levels : list pyval :=
  [PStr "Low"; PStr "Moderate"; PStr "High"; PStr "Critical"].

(** The report has no [seriousness] key, or one of the four levels. *)
Definition known_seriousness (report : gmap string pyval) : Prop :=
  seriousness_label report ∈ seriousness_levels.

(** The number of reports counted at a level. *)
Definition reports_at (level : string) (reports : list (gmap string pyval))
  : Z :=
  occurrences (PStr level) (map seriousness_label reports).

(** The pure counterpart of [py_map_enum]. *)
Fixpoint map_enum {A B} (g : Z -> A -> B) (start : Z) (l : list A) : list B :=
  match l with
  | [] => []
  | x :: l' => g start x :: map_enum g (start + 1) l'
  end.

Definition has_keys (keys : list string) (d : gmap string pyval) : Prop :=
  Forall (fun k => is_Some (d !! k)) keys.

Definition report_keys : list string :=
  ["email"; "issue"; "category"; "location"; "description"].

(** The dictionary the handler builds for one report. *)
Definition raw_summary (index : Z) (d : gmap string pyval) : IssueData.t :=
  IssueData.mk (index + 1) (get d "issue" PNone) (get d "category" PNone)
    (get d "location" PNone) (get d "seriousness" (PStr "Moderate"))
    (get d "description" PNone).

(** Whether the response model accepts the summary of a report. *)
Definition summary_ok (d : gmap string pyval) : bool :=
  is_str (get d "issue" PNone) && is_str (get d "category" PNone)
  && is_str (get d "location" PNone)
  && is_str (get d "seriousness" (PStr "Moderate"))
  && is_str (get d "description" PNone).

Definition report_summary (index : Z) (d : gmap string pyval) : ReportOut.t :=
  ReportOut.mk (index + 1) (py_str (get d "issue" PNone))
    (py_str (get d "category" PNone)) (py_str (get d "location" PNone))
    (py_str (get d "seriousness" (PStr "Moderate")))
    (py_str (get d "description" PNone)).

Definition history_ok (d : gmap string pyval) : bool :=
  is_str (get d "issue" PNone) && is_str (get d "category" PNone)
  && is_str (get d "status" (PStr "Unresolved")).

Definition history_item (index : Z) (d : gmap string pyval)
  : ReportHistoryItem.t :=
  ReportHistoryItem.mk (index + 1) (py_str (get d "issue" PNone))
    (py_str (get d "category" PNone))
    (py_str (get d "status" (PStr "Unresolved"))).

Definition notification_text (d : gmap string pyval) : string :=
  "Your report '" +:+ py_str (get d "issue" PNone)
  +:+ "' has been marked as resolved.".

(** The response computed from the reports of one user. *)
Definition user_dashboard_of (user_reports : list (gmap string pyval))
  : UserDashboardResponse.t :=
  UserDashboardResponse.mk
    (UserStats.mk (Z.of_nat (length user_reports))
       (py_count is_resolved user_reports)
       (Z.of_nat (length user_reports) - py_count is_resolved user_reports))
    (map_enum history_item 0 user_reports)
    (map notification_text
       (filter (fun r => is_resolved r = true) user_reports)).

(** ** A session of the service, used as concrete input *)

Definition alice : User.t := User.mk "A" "a@x.com" "p" "user" "1" "L".

Definition pothole : Report.t :=
  Report.mk "a@x.com" "authority" (Some "Roads") "Pothole" "d" "L" None None.

(** A community alert: no category is required, none is given. *)
Definition flood : Report.t :=
  Report.mk "a@x.com" "community" None "Flood" "d" "L" None (Some "High").

(** An authority report whose category is supplied as the empty string. *)
Definition blank_category : Report.t :=
  Report.mk "a@x.com" "authority" (Some "") "Pothole" "d" "L" None None.

Definition st_registered : db := snd (register_user alice init_db).
Definition st_pothole : db := snd (submit_report pothole st_registered).
Definition st_flood : db := snd (submit_report flood st_pothole).

(** A registration body whose email has no at sign. *)
Definition malformed_user : User.t :=
  User.mk "A" "not-an-email" "p" "user" "1" "L".

(** ** Sequences of requests *)

(** One state-changing request.  The read handlers leave the store alone. *)
Inductive step : db -> db -> Prop :=
  | step_register user st : step st (snd (register_user user st))
  | step_report report st : step st (snd (submit_report report st)).

(** [later st st']: the store [st'] is obtained from [st] by some sequence
    of registrations and submissions. *)
Definition later : db -> db -> Prop := rtc step.

(** The email entries of the stored users, in store order. *)
Definition user_emails (st : db) : list (option pyval) :=
  (fun d : gmap string pyval => d !! "email") <$> users_db st.

(** The success response of [login_user] for a user record. *)
Definition login_response (u : User.t) : LoginResponse.t :=
  LoginResponse.mk "Login successful"
    (<["name" := PStr (User.name u)]>
       (<["email" := PStr (User.email u)]>
          (<["role" := PStr (User.role u)]>
             (<["location" := PStr (User.location u)]> ∅)))).

(** ** Responses in terms of the submitted records *)

Definition has_category (r : Report.t) : bool :=
  match Report.category r with
  | Some _ => true
  | None => false
  end.

(** The summary of a freshly submitted report at position [index]. *)
Definition summary_of (index : Z) (r : Report.t) : ReportOut.t :=
  ReportOut.mk (index + 1) (Report.issue r) (default "" (Report.category r))
    (Report.location r) "Moderate" (Report.description r).

(** The history item of a freshly submitted report at position [index]. *)
Definition history_of (index : Z) (r : Report.t) : ReportHistoryItem.t :=
  ReportHistoryItem.mk (index + 1) (Report.issue r)
    (default "" (Report.category r)) "Unresolved".

(** The submitted reports of one email, in submission order. *)
Definition reports_of (email : string) (rs : list Report.t) : list Report.t :=
  List.filter (fun r => String.eqb (Report.email r) email) rs.

(** ** Stores on which the authority dashboard answers *)

Definition str_at (d : gmap string pyval) (k : string) : Prop :=
  exists s, d !! k = Some (PStr s).

(** A report dictionary that, beyond what submission stores, has a string
    [date], and whose [seriousness] and [status], when present, are one of
    the four levels and a string. *)
Definition dashboard_ready (d : gmap string pyval) : Prop :=
  str_at d "issue" /\ str_at d "category" /\ str_at d "date" /\
  known_seriousness d /\ (d !! "status" = None \/ str_at d "status").

Definition issue_item (index : Z) (d : gmap string pyval)
  : IssueManagementItem.t :=
  IssueManagementItem.mk (index + 1) (py_str (get d "issue" PNone))
    (py_str (get d "category" PNone)) (py_str (get d "date" PNone))
    (py_str (get d "seriousness" (PStr "Moderate")))
    (py_str (get d "status" (PStr "Unresolved"))).

Definition authority_dashboard_of (reports : list (gmap string pyval))
  : AuthorityDashboardResponse.t :=
  AuthorityDashboardResponse.mk (global_stats reports)
    (map category_pair (tally (map category_label reports)))
    [IssueBySeriousness.mk "Low" (reports_at "Low" reports);
     IssueBySeriousness.mk "Moderate" (reports_at "Moderate" reports);
     IssueBySeriousness.mk "High" (reports_at "High" reports);
     IssueBySeriousness.mk "Critical" (reports_at "Critical" reports)]
    (map_enum issue_item 0 reports).

(** ** Stores that no request sequence produces, used as concrete input *)

(** The stored pothole report after an operator has dated it, rated it and
    marked it resolved by hand. *)
Definition curated_pothole : gmap string pyval :=
  <["date" := PStr "2024-05-01"]>
    (<["status" := PStr "Resolved"]>
       (<["seriousness" := PStr "High"]> (Report.dict pothole))).

(** The same report with a seriousness outside the four levels. *)
Definition severe_pothole : gmap string pyval :=
  <["seriousness" := PStr "Severe"]> (Report.dict pothole).

Definition st_curated : db := mkdb [User.dict alice] [curated_pothole].

(** A stored report from which the [category] key has been removed. *)
Definition uncategorised_flood : gmap string pyval :=
  delete "category" (Report.dict flood).

(** ** The seriousness breakdown, read directly off the stored records *)

(** Whether a stored report belongs to the bucket [level]: by its stored
    [seriousness] when it has one, otherwise to "Moderate" only. *)
Definition counted_at (level : string) (d : gmap string pyval) : bool :=
  match d !! "seriousness" with
  | Some v => bool_decide (v = PStr level)
  | None => bool_decide (level = "Moderate")
  end.

(** The number of stored reports that belong to the bucket [level]. *)
Definition count_at (level : string) (reports : list (gmap string pyval))
  : Z :=
  Z.of_nat (length (List.filter (counted_at level) reports)).

(** The report stores no seriousness, or stores one of the four levels. *)
Definition seriousness_in_levels (d : gmap string pyval) : Prop :=
  d !! "seriousness" = None \/
  d !! "seriousness" = Some (PStr "Low") \/
  d !! "seriousness" = Some (PStr "Moderate") \/
  d !! "seriousness" = Some (PStr "High") \/
  d !! "seriousness" = Some (PStr "Critical").

(** A stored report after an operator has rated it by hand. *)
Definition rated (level : string) (d : gmap string pyval)
  : gmap string pyval :=
  <["seriousness" := PStr level]> d.

(** Six reports: two rated High, one Critical, one Low, one Moderate, and
    one that was never rated. *)
Definition rated_reports : list (gmap string pyval) :=
  [curated_pothole; Report.dict flood; rated "Critical" (Report.dict pothole);
   rated "Low" (Report.dict flood); rated "Moderate" (Report.dict pothole);
   curated_pothole].

(** ** A longer session: a second user, and an attempt to take a stored
    email *)

Definition bob : User.t := User.mk "B" "b@x.com" "q" "authority" "2" "M".

(** A registration that reuses alice's email under another name. *)
Definition alice_again : User.t :=
  User.mk "Mallory" "a@x.com" "x" "authority" "9" "Z".

Definition st_bob : db := snd (register_user bob st_flood).
Definition st_two_users : db := snd (register_user alice_again st_bob).

(** * Properties *)

Section StoredRecords.
Variable u : User.t.
Variable r : Report.t.

Lemma user_dict_name : User.dict u !! "name" = Some (PStr (User.name u)).
Proof. reflexivity. Qed.
Lemma user_dict_email : User.dict u !! "email" = Some (PStr (User.email u)).
Proof. reflexivity. Qed.
Lemma user_dict_password :
  User.dict u !! "password" = Some (PStr (User.password u)).
Proof. reflexivity. Qed.
Lemma user_dict_role : User.dict u !! "role" = Some (PStr (User.role u)).
Proof. reflexivity. Qed.
Lemma user_dict_location :
  User.dict u !! "location" = Some (PStr (User.location u)).
Proof. reflexivity. Qed.

Lemma report_dict_email :
  Report.dict r !! "email" = Some (PStr (Report.email r)).
Proof. reflexivity. Qed.
Lemma report_dict_issue :
  Report.dict r !! "issue" = Some (PStr (Report.issue r)).
Proof. reflexivity. Qed.
Lemma report_dict_category :
  Report.dict r !! "category" = Some (opt_val (Report.category r)).
Proof. reflexivity. Qed.
Lemma report_dict_location :
  Report.dict r !! "location" = Some (PStr (Report.location r)).
Proof. reflexivity. Qed.
Lemma report_dict_description :
  Report.dict r !! "description" = Some (PStr (Report.description r)).
Proof. reflexivity. Qed.
Lemma report_dict_seriousness : Report.dict r !! "seriousness" = None.
Proof. reflexivity. Qed.
Lemma report_dict_status : Report.dict r !! "status" = None.
Proof. reflexivity. Qed.
Lemma report_dict_date : Report.dict r !! "date" = None.
Proof. reflexivity. Qed.

Lemma user_dict_nonempty : User.dict u <> ∅.
Proof.
  intros H.
  assert (E : User.dict u !! "email" = (∅ : gmap string pyval) !! "email")
    by (by rw H).
  rw user_dict_email lookup_empty in E. discriminate.
Qed.
End StoredRecords.

(** ** Scanning a store by email *)

Lemma registered_has_email_key d : registered d -> has_email_key d.
Proof. intros [u ->]. rw /has_email_key user_dict_email. eauto. Qed.

Lemma submitted_has_email_key d : submitted d -> has_email_key d.
Proof. intros [r ->]. rw /has_email_key report_dict_email. eauto. Qed.

Lemma email_is_matches email d :
  has_email_key d -> email_is email d = Ok (email_matches email d).
Proof.
  intros [v Hv]. rw /email_is /getitem /email_matches Hv /= /py_eq.
  f_equal. apply bool_decide_ext. split; congruence.
Qed.

Lemma email_matches_true email d :
  email_matches email d = true <-> d !! "email" = Some (PStr email).
Proof. apply bool_decide_eq_true. Qed.

Lemma py_any_email email (l : list (gmap string pyval)) :
  Forall has_email_key l ->
  py_any (email_is email) l = Ok (existsb (email_matches email) l).
Proof.
  induction 1 as [|d l Hd _ IH]; [done|].
  cbn [py_any existsb]. rw (email_is_matches _ _ Hd) /=.
  destruct (email_matches email d); [done|]. by rw IH.
Qed.

Lemma py_next_email email (l : list (gmap string pyval)) :
  Forall has_email_key l ->
  py_next (email_is email) l = Ok (List.find (email_matches email) l).
Proof.
  induction 1 as [|d l Hd _ IH]; [done|].
  cbn [py_next List.find]. rw (email_is_matches _ _ Hd) /=.
  destruct (email_matches email d); [done|]. by rw IH.
Qed.

Lemma py_filter_email email (l : list (gmap string pyval)) :
  Forall has_email_key l ->
  py_filter (email_is email) l = Ok (List.filter (email_matches email) l).
Proof.
  induction 1 as [|d l Hd _ IH]; [done|].
  cbn [py_filter List.filter]. rw (email_is_matches _ _ Hd) /= IH /=.
  by destruct (email_matches email d).
Qed.

Lemma existsb_email_has_user email st :
  existsb (email_matches email) (users_db st) = true <-> has_user email st.
Proof.
  rw existsb_exists /has_user. split.
  - intros (d & Hin & Hd). exists d. split; [by apply list_elem_of_In|].
    by apply email_matches_true.
  - intros (d & Hin & Hd). exists d. split; [by apply list_elem_of_In|].
    by apply email_matches_true.
Qed.

Lemma scan_users email st :
  Forall registered (users_db st) ->
  (has_user email st /\ py_any (email_is email) (users_db st) = Ok true) \/
  (~ has_user email st /\ py_any (email_is email) (users_db st) = Ok false).
Proof.
  intros Hwf.
  assert (Hk : Forall has_email_key (users_db st)).
  { eapply Forall_impl; [exact Hwf|]. apply registered_has_email_key. }
  rw (py_any_email email _ Hk).
  destruct (existsb (email_matches email) (users_db st)) eqn:E;
    [left|right]; split; try done.
  - by apply existsb_email_has_user.
  - rw -existsb_email_has_user. congruence.
Qed.

(** ** Registration *)

Lemma register_user_taken user st :
  Forall registered (users_db st) ->
  has_user (User.email user) st ->
  register_user user st = (Raise Conflict, st).
Proof.
  intros Hwf Hu. rw /register_user.
  destruct (scan_users (User.email user) st Hwf) as [[_ ->]|[Hn _]]; done.
Qed.

Lemma register_user_fresh user st :
  Forall registered (users_db st) ->
  ~ has_user (User.email user) st ->
  register_user user st =
    (Ok "User registered successfully",
     mkdb (users_db st ++ [User.dict user]) (reports_db st)).
Proof.
  intros Hwf Hu. rw /register_user.
  destruct (scan_users (User.email user) st Hwf) as [[Hy _]|[_ ->]]; done.
Qed.

Lemma register_user_wf user st :
  Forall registered (users_db st) ->
  Forall registered (users_db (snd (register_user user st))).
Proof.
  intros Hwf. rw /register_user.
  destruct (scan_users (User.email user) st Hwf) as [[_ ->]|[_ ->]]; [done|].
  cbn. apply Forall_app. split; [done|]. constructor; [|constructor].
  by exists user.
Qed.

Lemma register_user_has_user user st :
  Forall registered (users_db st) ->
  has_user (User.email user) (snd (register_user user st)).
Proof.
  intros Hwf.
  destruct (scan_users (User.email user) st Hwf) as [[Hy E]|[Hn E]].
  - by rw register_user_taken.
  - rw register_user_fresh //=. exists (User.dict user). split.
    + cbn. apply elem_of_app. right. by apply list_elem_of_singleton.
    + apply user_dict_email.
Qed.

(** C3: registration fails with Conflict exactly when a stored user record
    already has the same email, and then leaves the store as it was;
    otherwise it appends exactly one record.  A second registration with the
    same email always yields Conflict and changes nothing, so a fresh email
    registered twice grows the user store by exactly one record. *)
Theorem C3_register_conflict_iff_email_taken (user : User.t) (st : db) :
  Forall registered (users_db st) ->
  (fst (register_user user st) = Raise Conflict
     <-> has_user (User.email user) st) /\
  (has_user (User.email user) st ->
     register_user user st = (Raise Conflict, st)) /\
  (~ has_user (User.email user) st ->
     register_user user st =
       (Ok "User registered successfully",
        mkdb (users_db st ++ [User.dict user]) (reports_db st))) /\
  (forall user', User.email user' = User.email user ->
     let st1 := snd (register_user user st) in
     register_user user' st1 = (Raise Conflict, st1) /\
     (~ has_user (User.email user) st ->
        length (users_db (snd (register_user user' st1)))
        = S (length (users_db st)))).
Proof.
  intros Hwf. repeat split.
  - intros H. destruct (scan_users (User.email user) st Hwf) as [[Hy _]|[Hn _]];
      [done|]. rw register_user_fresh // in H.
  - intros H. by rw register_user_taken.
  - by apply register_user_taken.
  - by apply register_user_fresh.
  - apply register_user_taken; [by apply register_user_wf|].
    rw H. by apply register_user_has_user.
  - intros Hn.
    assert (E : register_user user' (snd (register_user user st))
                = (Raise Conflict, snd (register_user user st))).
    { apply register_user_taken; [by apply register_user_wf|].
      rw H. by apply register_user_has_user. }
    rw E (register_user_fresh user st Hwf Hn). cbn. rw length_app /=. lia.
Qed.

(** ** Report submission *)

Lemma falsy_cases o : falsy o <-> o = None \/ o = Some "".
Proof.
  rw /falsy. destruct o as [s|]; cbn.
  - rw negb_false_iff String.eqb_eq. split; [intros ->; by right|].
    intros [?|[= ->]]; done.
  - split; [by left|done].
Qed.

Lemma authority_guard report :
  String.eqb (Report.type report) "authority"
    && negb (truthy (Report.category report)) = true
  <-> Report.type report = "authority" /\ falsy (Report.category report).
Proof. by rw andb_true_iff String.eqb_eq negb_true_iff. Qed.

Lemma community_guard report :
  String.eqb (Report.type report) "community"
    && negb (truthy (Report.alertLevel report)) = true
  <-> Report.type report = "community" /\ falsy (Report.alertLevel report).
Proof. by rw andb_true_iff String.eqb_eq negb_true_iff. Qed.

(** Whatever the outcome, a failure leaves both lists as they were and a
    success appends one record to the report list only. *)
Lemma submit_report_store report st :
  match fst (submit_report report st) with
  | Raise _ => snd (submit_report report st) = st
  | Ok _ =>
      snd (submit_report report st)
      = mkdb (users_db st) (reports_db st ++ [Report.dict report])
  end.
Proof.
  rw /submit_report.
  destruct (py_any _ _) as [[]|]; try done.
  destruct (_ && _); [done|]. by destruct (_ && _).
Qed.

(** C2 (amended): submission fails with NotFound if no stored user has the
    email; otherwise with BadRequest if the type is "authority" and the
    category is absent or the empty string; otherwise with BadRequest if the
    type is "community" and the alert level is absent or the empty string.
    Each failure leaves the store unchanged, and every other submission
    appends exactly one report record. *)
Theorem C2_submit_report_contract (report : Report.t) (st : db) :
  Forall registered (users_db st) ->
  submit_report_contract falsy report st.
Proof.
  intros Hwf. rw /submit_report_contract /submit_report.
  destruct (scan_users (Report.email report) st Hwf) as [[Hy ->]|[Hn ->]].
  - split; [done|].
    destruct (String.eqb (Report.type report) "authority"
              && negb (truthy (Report.category report))) eqn:Ea.
    { apply authority_guard in Ea as [Ht Hc]. split; [done|].
      split; [|intros _ Hna; by destruct Hna].
      intros _ Ht'. rw Ht in Ht'. discriminate. }
    assert (Hna : ~ (Report.type report = "authority"
                     /\ falsy (Report.category report))).
    { rw -authority_guard Ea. done. }
    split; [intros _ Ht Hc; by destruct Hna|].
    destruct (String.eqb (Report.type report) "community"
              && negb (truthy (Report.alertLevel report))) eqn:Ec.
    { apply community_guard in Ec as [Ht Hc]. split; [done|].
      intros _ _ Hnc. by destruct Hnc. }
    assert (Hnc : ~ (Report.type report = "community"
                     /\ falsy (Report.alertLevel report))).
    { rw -community_guard Ec. done. }
    split; [intros _ Ht Hc; by destruct Hnc|done].
  - split; [done|]. repeat split; intros Hy; by destruct Hn.
Qed.

(** ** Login *)

Lemma find_email_none email st :
  List.find (email_matches email) (users_db st) = None
  <-> ~ has_user email st.
Proof.
  rw -existsb_email_has_user. split.
  - intros Hf He. apply existsb_exists in He as (d & Hin & Hd).
    by rw (find_none _ _ Hf d Hin) in Hd.
  - intros Hn. destruct (List.find _ _) as [d|] eqn:F; [|done].
    apply find_some in F as [Hin Hd]. destruct Hn.
    apply existsb_exists. eauto.
Qed.

Lemma login_user_found (user : UserLogin.t) (st : db) (u : User.t) :
  Forall registered (users_db st) ->
  List.find (email_matches (UserLogin.email user)) (users_db st)
    = Some (User.dict u) ->
  login_user user st =
    if bool_decide (User.password u = UserLogin.password user)
    then Ok (LoginResponse.mk "Login successful"
               (<["name" := PStr (User.name u)]>
                  (<["email" := PStr (User.email u)]>
                     (<["role" := PStr (User.role u)]>
                        (<["location" := PStr (User.location u)]> ∅)))))
    else Raise Unauthorized.
Proof.
  intros Hwf F.
  assert (Hk : Forall has_email_key (users_db st)).
  { eapply Forall_impl; [exact Hwf|]. apply registered_has_email_key. }
  rw /login_user (py_next_email _ _ Hk) F. cbn [bind].
  rw (bool_decide_eq_false_2 _ (user_dict_nonempty u)).
  rw /getitem user_dict_password user_dict_name user_dict_email
     user_dict_role user_dict_location. cbn [bind]. rw /py_eq.
  case_bool_decide as E1; case_bool_decide as E2; try done;
    exfalso; apply E2 || apply E1; congruence.
Qed.

Lemma login_response_view (u : User.t) (k : string) :
  (<["name" := PStr (User.name u)]>
     (<["email" := PStr (User.email u)]>
        (<["role" := PStr (User.role u)]>
           (<["location" := PStr (User.location u)]>
              (∅ : gmap string pyval))))) !! k
  = login_view (User.dict u) k.
Proof.
  rw /login_view.
  destruct (decide (k = "name")) as [->|N1]; [done|].
  destruct (decide (k = "email")) as [->|N2]; [done|].
  destruct (decide (k = "role")) as [->|N3]; [done|].
  destruct (decide (k = "location")) as [->|N4]; [done|].
  do 4 (rw lookup_insert_ne; [congruence|]).
  rw lookup_empty bool_decide_eq_false_2; [|done].
  rw !elem_of_cons elem_of_nil. intros [?|[?|[?|[?|[]]]]]; done.
Qed.

(** C6: login fails with Unauthorized exactly when no stored user has the
    email or the first user with that email has a different password
    (string equality); no other error is possible.  A successful response
    carries the fixed message and exactly the name, email, role and location
    entries of that first user, and no password entry. *)
Theorem C6_login_unauthorized_iff (user : UserLogin.t) (st : db) :
  Forall registered (users_db st) ->
  let found :=
    List.find (email_matches (UserLogin.email user)) (users_db st) in
  (login_user user st = Raise Unauthorized <->
     ~ has_user (UserLogin.email user) st \/
     exists d, found = Some d /\
       d !! "password" <> Some (PStr (UserLogin.password user))) /\
  (forall e, login_user user st = Raise e -> e = Unauthorized) /\
  (forall resp, login_user user st = Ok resp ->
     exists d, found = Some d /\
       d !! "password" = Some (PStr (UserLogin.password user)) /\
       LoginResponse.message resp = "Login successful" /\
       (forall k, LoginResponse.user resp !! k = login_view d k) /\
       LoginResponse.user resp !! "password" = None).
Proof.
  intros Hwf found.
  assert (Hk : Forall has_email_key (users_db st)).
  { eapply Forall_impl; [exact Hwf|]. apply registered_has_email_key. }
  destruct found as [d|] eqn:F; subst found.
  - pose proof (find_some _ _ F) as [Hin _].
    apply list_elem_of_In in Hin.
    destruct (proj1 (Forall_forall _ _) Hwf d Hin) as [u ->].
    rw (login_user_found user st u Hwf F).
    assert (Hy : has_user (UserLogin.email user) st).
    { exists (User.dict u). split; [done|].
      apply find_some in F as [_ Hm]. by apply email_matches_true. }
    case_bool_decide as E.
    + split; [|split].
      * split; [done|]. intros [Hn|(d & [= <-] & Hd)]; [done|].
        rw user_dict_password in Hd. congruence.
      * done.
      * intros resp [= <-]. exists (User.dict u).
        rw user_dict_password E. cbn.
        split; [done|]. split; [done|]. split; [done|]. split.
        -- apply login_response_view.
        -- by rw login_response_view.
    + split; [|split].
      * split; [|done]. intros _. right. exists (User.dict u).
        rw user_dict_password. split; [done|]. congruence.
      * by intros e [= <-].
      * done.
  - rw /login_user (py_next_email _ _ Hk) F. cbn. split; [|split].
    + split; [|done]. intros _. left. by apply find_email_none.
    + by intros e [= <-].
    + done.
Qed.

(** ** Tallies kept in an insertion-ordered dictionary *)

Section Tally.
Implicit Types (k : pyval) (ks : list pyval) (f g : pyval -> Z).

Lemma elem_of_first_seen k ks : k ∈ first_seen ks <-> k ∈ ks.
Proof.
  induction ks as [|a ks IH]; [done|]. cbn [first_seen].
  rw !elem_of_cons list_elem_of_filter IH.
  destruct (decide (k = a)); tauto.
Qed.

Lemma NoDup_first_seen ks : NoDup (first_seen ks).
Proof.
  induction ks as [|a ks IH]; [constructor|]. cbn [first_seen].
  constructor; [|by apply NoDup_filter].
  rw list_elem_of_filter. tauto.
Qed.

Lemma filter_ne_absent k (l : list pyval) :
  k ∉ l -> filter (fun k' => k' <> k) l = l.
Proof.
  induction l as [|a l IH]; [done|]. rw not_elem_of_cons. intros [Hne Hl].
  rw filter_cons_True; [congruence|]. by rw IH.
Qed.

Lemma first_seen_snoc k ks :
  first_seen (ks ++ [k])
  = if bool_decide (k ∈ ks) then first_seen ks
    else (first_seen ks ++ [k])%list.
Proof.
  induction ks as [|a ks IH]; [done|]. cbn [app first_seen]. rw IH.
  destruct (decide (k = a)) as [->|Hne].
  - rw (bool_decide_eq_true_2 (a ∈ a :: ks)); [by left|].
    case_bool_decide; [done|].
    rw filter_app filter_cons_False; [tauto|].
    by rw filter_nil app_nil_r.
  - case_bool_decide as Hin.
    + rw (bool_decide_eq_true_2 (k ∈ a :: ks)); [by right|]. done.
    + rw (bool_decide_eq_false_2 (k ∈ a :: ks)).
      { rw not_elem_of_cons. done. }
      rw filter_app filter_cons_True; [done|]. by rw filter_nil.
Qed.

Lemma occurrences_snoc k' k ks :
  occurrences k' (ks ++ [k])
  = occurrences k' ks + (if bool_decide (k' = k) then 1 else 0).
Proof.
  rw /occurrences /py_count filter_app length_app Nat2Z.inj_add.
  f_equal. rw /py_eq. case_bool_decide as E.
  - rw filter_cons_True; [by apply bool_decide_eq_true|]. done.
  - rw filter_cons_False; [by rw bool_decide_eq_true|]. done.
Qed.

Lemma occurrences_absent k ks : k ∉ ks -> occurrences k ks = 0.
Proof.
  intros Hn. rw /occurrences /py_count.
  induction ks as [|a ks IH]; [done|].
  apply not_elem_of_cons in Hn as [Hne Hn].
  rw filter_cons_False; [rw /py_eq bool_decide_eq_true; done|]. by apply IH.
Qed.

Lemma dict_get_map f (keys : list pyval) k :
  dict_get (map (fun x => (x, f x)) keys) k
  = if bool_decide (k ∈ keys) then Some (f k) else None.
Proof.
  induction keys as [|a keys IH]; [done|]. cbn [map dict_get].
  destruct (decide (a = k)) as [->|Hne].
  - rw (bool_decide_eq_true_2 (k = k)); [done|].
    rw (bool_decide_eq_true_2 (k ∈ k :: keys)); [by left|]. done.
  - rw (bool_decide_eq_false_2 (a = k)); [done|].
    rw IH. case_bool_decide as Hin.
    + rw (bool_decide_eq_true_2 (k ∈ a :: keys)); [by right|]. done.
    + rw (bool_decide_eq_false_2 (k ∈ a :: keys)); [|done].
      rw not_elem_of_cons. split; [congruence|done].
Qed.

Lemma dict_set_map_new f (keys : list pyval) k v :
  k ∉ keys ->
  dict_set (map (fun x => (x, f x)) keys) k v
  = (map (fun x => (x, f x)) keys ++ [(k, v)])%list.
Proof.
  induction keys as [|a keys IH]; [done|]. rw not_elem_of_cons.
  intros [Hne Hn]. cbn [map dict_set app].
  rw bool_decide_eq_false_2; [congruence|]. by rw IH.
Qed.

Lemma map_pair_ext f g (keys : list pyval) :
  (forall x, x ∈ keys -> f x = g x) ->
  map (fun x => (x, f x)) keys = map (fun x => (x, g x)) keys.
Proof.
  intros H. apply map_ext_in. intros x Hx. f_equal. apply H.
  by apply list_elem_of_In.
Qed.

Lemma dict_set_map_old f g (keys : list pyval) k v :
  NoDup keys -> k ∈ keys ->
  (forall x, x <> k -> g x = f x) -> g k = v ->
  dict_set (map (fun x => (x, f x)) keys) k v
  = map (fun x => (x, g x)) keys.
Proof.
  intros Hnd Hin Hg Hk. induction Hnd as [|a keys Ha Hnd IH]; [by inv Hin|].
  cbn [map dict_set]. destruct (decide (a = k)) as [->|Hne].
  - rw (bool_decide_eq_true_2 (k = k)); [done|].
    rw Hk. f_equal. apply map_pair_ext. intros x Hx.
    symmetry. apply Hg. intros ->. done.
  - rw (bool_decide_eq_false_2 (a = k)); [done|].
    rw Hg; [congruence|]. f_equal. apply IH.
    apply elem_of_cons in Hin as [->|]; done.
Qed.

(** Counting one more key in a dictionary that holds the tally of [ks]
    yields the tally of [ks] followed by that key. *)
Lemma tally_snoc k ks :
  dict_set (tally ks) k (default 0 (dict_get (tally ks) k) + 1)
  = tally (ks ++ [k]).
Proof.
  rw /tally dict_get_map first_seen_snoc.
  rw (bool_decide_ext (k ∈ first_seen ks) (k ∈ ks) (elem_of_first_seen k ks)).
  case_bool_decide as Hin; cbn [default].
  - apply dict_set_map_old.
    + apply NoDup_first_seen.
    + by apply elem_of_first_seen.
    + intros x Hx. rw occurrences_snoc bool_decide_eq_false_2 //. lia.
    + by rw occurrences_snoc bool_decide_eq_true_2.
  - rw dict_set_map_new; [by rw elem_of_first_seen|].
    rw map_app. cbn [map]. f_equal.
    + apply map_pair_ext. intros x Hx.
      rw occurrences_snoc bool_decide_eq_false_2; [|lia].
      intros ->. apply Hin. by apply elem_of_first_seen.
    + by rw occurrences_snoc bool_decide_eq_true_2 // occurrences_absent.
Qed.

Lemma dict_increment_total (d : list (pyval * Z)) k :
  foldr Z.add 0
    (map snd (dict_set d k (default 0 (dict_get d k) + 1)))
  = foldr Z.add 0 (map snd d) + 1.
Proof.
  induction d as [|[a c] d IHd]; [done|]. cbn [dict_get dict_set].
  case_bool_decide; simpl; [lia|]. simpl in IHd. rw IHd. lia.
Qed.

(** The tallied counts add up to the number of keys counted. *)
Lemma tally_total ks :
  foldr Z.add 0 (map snd (tally ks)) = Z.of_nat (length ks).
Proof.
  induction ks as [|k ks IH] using rev_ind; [done|].
  rw -tally_snoc dict_increment_total IH length_app Nat2Z.inj_add.
  done.
Qed.
End Tally.

(** ** Authority dashboard: issues by category *)

Lemma category_counts_from (ks : list pyval)
    (reports : list (gmap string pyval)) :
  fold_left category_step reports (tally ks)
  = tally (ks ++ map category_label reports).
Proof.
  revert ks. induction reports as [|r reports IH]; intros ks.
  - by rw /= app_nil_r.
  - cbn [fold_left map]. rw /category_step -/(category_label r) tally_snoc IH.
    by rw -app_assoc.
Qed.

(** The loop over the store leaves in [category_counts] the tally of the
    category labels, in first-seen order. *)
Lemma category_counts_tally (reports : list (gmap string pyval)) :
  category_counts reports = tally (map category_label reports).
Proof. apply (category_counts_from []). Qed.

Lemma py_map_IssueByCategory (d : list (pyval * Z)) :
  py_map (fun '(category, count) => IssueByCategory.new category count) d
  = if forallb (fun p => is_str (fst p)) d
    then Ok (map category_pair d)
    else Raise (ValidationError "IssueByCategory").
Proof.
  induction d as [|[k c] d IH]; [done|]. cbn [py_map forallb fst].
  destruct k as [|s]; [done|]. cbn. rw IH.
  by destruct (forallb _ d).
Qed.

Lemma forallb_tally_keys (ks : list pyval) :
  forallb (fun p => is_str (fst p)) (tally ks) = forallb is_str ks.
Proof.
  apply eq_true_iff_eq. rw !forallb_forall. split.
  - intros H k Hk.
    apply (H (k, occurrences k ks)). rw /tally. apply in_map_iff.
    exists k. split; [done|].
    by apply (proj1 (list_elem_of_In _ _)), elem_of_first_seen,
      (proj2 (list_elem_of_In _ _)).
  - intros H [k c] Hp. apply in_map_iff in Hp as (k' & [= <- <-] & Hk').
    apply H.
    by apply (proj1 (list_elem_of_In _ _)), elem_of_first_seen,
      (proj2 (list_elem_of_In _ _)).
Qed.

Lemma issues_by_category_eq (reports : list (gmap string pyval)) :
  issues_by_category reports
  = if forallb is_str (map category_label reports)
    then Ok (map category_pair (tally (map category_label reports)))
    else Raise (ValidationError "IssueByCategory").
Proof.
  rw /issues_by_category py_map_IssueByCategory category_counts_tally.
  by rw forallb_tally_keys.
Qed.

(** X19: what the category breakdown is whenever every report carries a
    string category or no [category] key at all: the first-seen tally of
    the labels, a missing key counted as "Other", whose counts add up to the
    number of reports. *)
Lemma issues_by_category_tally (reports : list (gmap string pyval)) :
  forallb is_str (map category_label reports) = true ->
  issues_by_category reports
    = Ok (map category_pair (tally (map category_label reports))) /\
  foldr Z.add 0
    (map IssueByCategory.count
       (map category_pair (tally (map category_label reports))))
    = Z.of_nat (length reports).
Proof.
  intros H. rw issues_by_category_eq H. split; [done|].
  rw map_map. rw -(length_map category_label reports) -tally_total.
  reflexivity.
Qed.

(** ** Authority dashboard: issues by seriousness *)

(** Evaluates the comparisons between literal values in the goal. *)
Ltac decide_closed :=
  repeat match goal with
  | |- context [bool_decide (PStr ?a = PStr ?b)] =>
      let v := eval vm_compute in (bool_decide (PStr a = PStr b)) in
      change (bool_decide (PStr a = PStr b)) with v
  end.

Lemma reports_at_cons level r (reports : list (gmap string pyval)) :
  reports_at level (r :: reports)
  = (if bool_decide (PStr level = seriousness_label r) then 1 else 0)
    + reports_at level reports.
Proof.
  rw /reports_at /occurrences /py_count /py_eq. cbn [map].
  case_bool_decide as E.
  - rw filter_cons_True; [by apply bool_decide_eq_true|].
    cbn [length]. lia.
  - rw filter_cons_False; [by rw bool_decide_eq_true|]. lia.
Qed.

Lemma known_seriousness_cases r :
  known_seriousness r ->
  seriousness_label r = PStr "Low" \/ seriousness_label r = PStr "Moderate" \/
  seriousness_label r = PStr "High" \/ seriousness_label r = PStr "Critical".
Proof.
  rw /known_seriousness /seriousness_levels !elem_of_cons elem_of_nil. tauto.
Qed.

Lemma seriousness_loop_counts (a b c d : Z)
    (reports : list (gmap string pyval)) :
  Forall known_seriousness reports ->
  seriousness_loop
    [(PStr "Low", a); (PStr "Moderate", b); (PStr "High", c);
     (PStr "Critical", d)] reports
  = Ok [(PStr "Low", a + reports_at "Low" reports);
        (PStr "Moderate", b + reports_at "Moderate" reports);
        (PStr "High", c + reports_at "High" reports);
        (PStr "Critical", d + reports_at "Critical" reports)].
Proof.
  intros Hk. revert a b c d.
  induction Hk as [|r reports Hr _ IH]; intros a b c d.
  - rw /reports_at /occurrences /py_count /= !Z.add_0_r. done.
  - cbn [seriousness_loop]. rw -/(seriousness_label r) !reports_at_cons.
    destruct (known_seriousness_cases r Hr) as [E|[E|[E|E]]]; rw E;
      cbn [dict_get dict_set]; decide_closed; cbv iota; rw IH;
      by rw !Z.add_assoc !Z.add_0_r.
Qed.

Lemma reports_at_total (reports : list (gmap string pyval)) :
  Forall known_seriousness reports ->
  reports_at "Low" reports + reports_at "Moderate" reports
  + reports_at "High" reports + reports_at "Critical" reports
  = Z.of_nat (length reports).
Proof.
  induction 1 as [|r reports Hr _ IH]; [done|].
  rw !reports_at_cons length_cons Nat2Z.inj_succ -IH.
  destruct (known_seriousness_cases r Hr) as [E|[E|[E|E]]]; rw E;
    decide_closed; lia.
Qed.

Lemma counted_at_label (level : string) (d : gmap string pyval) :
  counted_at level d = bool_decide (PStr level = seriousness_label d).
Proof.
  rw /counted_at /seriousness_label /get.
  destruct (d !! "seriousness") as [v|]; simpl;
    apply bool_decide_ext; split; congruence.
Qed.

Lemma count_at_reports_at (level : string)
    (reports : list (gmap string pyval)) :
  count_at level reports = reports_at level reports.
Proof.
  induction reports as [|d l IH]; [done|].
  rw reports_at_cons -IH /count_at. cbn [List.filter].
  rw counted_at_label.
  destruct (bool_decide (PStr level = seriousness_label d)); cbn [length]; lia.
Qed.

Lemma seriousness_in_levels_known (d : gmap string pyval) :
  seriousness_in_levels d -> known_seriousness d.
Proof.
  rw /known_seriousness /seriousness_label /get /seriousness_levels
     !elem_of_cons.
  intros [E|[E|[E|[E|E]]]]; rw E; simpl; tauto.
Qed.

(** C4: whenever each report stores no seriousness or one of the four
    levels (in particular for every store the service can build, and for
    the empty store), [issuesBySeriousness] is exactly the buckets Low,
    Moderate, High, Critical in that order; each bucket holds the number of
    reports that store that level, a report that stores no seriousness
    being counted as Moderate and nowhere else; and the four counts add up
    to the number of reports, which is [totalReports]. *)
Theorem C4_issues_by_seriousness_four_buckets
    (reports : list (gmap string pyval)) :
  Forall seriousness_in_levels reports ->
  issues_by_seriousness reports
    = Ok [IssueBySeriousness.mk "Low" (count_at "Low" reports);
          IssueBySeriousness.mk "Moderate" (count_at "Moderate" reports);
          IssueBySeriousness.mk "High" (count_at "High" reports);
          IssueBySeriousness.mk "Critical" (count_at "Critical" reports)] /\
  count_at "Low" reports + count_at "Moderate" reports
  + count_at "High" reports + count_at "Critical" reports
  = Z.of_nat (length reports) /\
  GlobalStats.totalReports (global_stats reports) = Z.of_nat (length reports).
Proof.
  intros Hl.
  assert (Hk : Forall known_seriousness reports).
  { eapply Forall_impl; [exact Hl|]. apply seriousness_in_levels_known. }
  rw !count_at_reports_at. split; [|split].
  - rw /issues_by_seriousness /seriousness_init.
    by rw (seriousness_loop_counts 0 0 0 0 reports Hk).
  - by apply reports_at_total.
  - done.
Qed.

(** ** Comprehensions whose elements fail uniformly *)

Section Comprehensions.
Context {A B : Type}.
Implicit Types (l : list A) (ok : A -> bool) (e : exn).

Lemma py_map_enum_uniform (f : Z -> A -> result B) (g : Z -> A -> B)
    ok e start l :
  (forall i x, x ∈ l -> f i x = if ok x then Ok (g i x) else Raise e) ->
  py_map_enum f start l
  = if forallb ok l then Ok (map_enum g start l) else Raise e.
Proof.
  revert start. induction l as [|x l IH]; intros start Hf; [done|].
  cbn [py_map_enum forallb map_enum]. rw Hf; [by left|].
  destruct (ok x); [|done]. cbn. rw IH.
  - intros i y Hy. apply Hf. by right.
  - by destruct (forallb ok l).
Qed.

Lemma py_map_uniform (f : A -> result B) (g : A -> B) ok e l :
  (forall x, x ∈ l -> f x = if ok x then Ok (g x) else Raise e) ->
  py_map f l = if forallb ok l then Ok (map g l) else Raise e.
Proof.
  induction l as [|x l IH]; intros Hf; [done|].
  cbn [py_map forallb map]. rw Hf; [by left|].
  destruct (ok x); [|done]. cbn. rw IH.
  - intros y Hy. apply Hf. by right.
  - by destruct (forallb ok l).
Qed.

Lemma length_map_enum (g : Z -> A -> B) start l :
  length (map_enum g start l) = length l.
Proof.
  revert start. induction l as [|x l IH]; intros start; [done|].
  cbn. by rw IH.
Qed.

(** The element at position [i] is built from the [i]-th input and the
    index [start + i]. *)
Lemma lookup_map_enum (g : Z -> A -> B) start l (i : nat) :
  map_enum g start l !! i = g (start + Z.of_nat i) <$> l !! i.
Proof.
  revert start i. induction l as [|x l IH]; intros start i; [done|].
  destruct i as [|i]; cbn.
  - by rw Z.add_0_r.
  - rw IH. do 2 f_equal. lia.
Qed.

Lemma forallb_false_elem ok l x : x ∈ l -> ok x = false -> forallb ok l = false.
Proof.
  intros Hin Hx. destruct (forallb ok l) eqn:E; [|done].
  rw forallb_forall in E. rw -Hx. symmetry. apply E.
  by apply list_elem_of_In.
Qed.
End Comprehensions.

Lemma forallb_map_enum {A B} (ok : B -> bool) (ok' : A -> bool)
    (g : Z -> A -> B) start (l : list A) :
  (forall i x, ok (g i x) = ok' x) ->
  forallb ok (map_enum g start l) = forallb ok' l.
Proof.
  intros H. revert start. induction l as [|x l IH]; intros start; [done|].
  cbn. by rw H IH.
Qed.

(** ** Listing all reports *)

Lemma getitem_get d k : is_Some (d !! k) -> getitem d k = Ok (get d k PNone).
Proof. intros [v Hv]. by rw /getitem /get Hv. Qed.

Lemma has_keys_elem keys d k : has_keys keys d -> k ∈ keys -> is_Some (d !! k).
Proof. intros H. by apply (proj1 (Forall_forall _ _) H). Qed.

Lemma submitted_has_keys d : submitted d -> has_keys report_keys d.
Proof. intros [r ->]. repeat constructor; by eexists. Qed.

Ltac key_present H :=
  apply (has_keys_elem _ _ _ H); rw /report_keys !elem_of_cons; tauto.

Lemma issues_data_eq st :
  Forall (has_keys report_keys) (reports_db st) ->
  issues_data st = Ok (map_enum raw_summary 0 (reports_db st)).
Proof.
  intros Hk. rw /issues_data. generalize 0.
  induction Hk as [|d l Hd _ IH]; intros start; [done|].
  cbn [py_map_enum map_enum]. rw IH /issues_datum.
  rw !getitem_get; try key_present Hd. done.
Qed.

Lemma ReportOut_validate_eq index d :
  ReportOut_validate (raw_summary index d)
  = if summary_ok d then Ok (report_summary index d)
    else Raise (ValidationError "ReportOut").
Proof.
  rw /ReportOut_validate /summary_ok /report_summary /raw_summary. cbn.
  destruct (get d "issue" PNone); [done|].
  destruct (get d "category" PNone); [done|].
  destruct (get d "location" PNone); [done|].
  destruct (get d "seriousness" (PStr "Moderate")); [done|].
  by destruct (get d "description" PNone).
Qed.

Lemma py_map_validate_enum start (l : list (gmap string pyval)) :
  py_map ReportOut_validate (map_enum raw_summary start l)
  = if forallb summary_ok l then Ok (map_enum report_summary start l)
    else Raise (ValidationError "ReportOut").
Proof.
  revert start. induction l as [|d l IH]; intros start; [done|].
  cbn [map_enum py_map forallb]. rw ReportOut_validate_eq.
  destruct (summary_ok d); [|done]. cbn. rw IH.
  by destruct (forallb summary_ok l).
Qed.

(** The endpoint on any store whose reports have the keys that
    [report.dict()] writes: it answers exactly when every summary passes the
    response model, and then with one summary per report, in store order. *)
Lemma get_all_reports_eq st :
  Forall (has_keys report_keys) (reports_db st) ->
  get_all_reports st
  = if forallb summary_ok (reports_db st)
    then Ok (map_enum report_summary 0 (reports_db st))
    else Raise (ResponseValidationError "ReportOut").
Proof.
  intros Hk. rw /get_all_reports (issues_data_eq st Hk). cbn [bind].
  rw /response_model_ReportOut py_map_validate_enum.
  by destruct (forallb summary_ok (reports_db st)).
Qed.

(** X20: what [/reports] returns whenever it answers: the [i]-th summary belongs
    to the [i]-th stored report, has id [i + 1], the report's issue as
    title, and the stored seriousness or "Moderate". *)
Lemma get_all_reports_summaries st :
  Forall (has_keys report_keys) (reports_db st) ->
  forallb summary_ok (reports_db st) = true ->
  exists out,
    get_all_reports st = Ok out /\
    length out = length (reports_db st) /\
    forall (i : nat) d, reports_db st !! i = Some d ->
      exists o, out !! i = Some o /\
        ReportOut.id o = Z.of_nat i + 1 /\
        d !! "issue" = Some (PStr (ReportOut.title o)) /\
        PStr (ReportOut.seriousness o)
          = default (PStr "Moderate") (d !! "seriousness").
Proof.
  intros Hk Hok. exists (map_enum report_summary 0 (reports_db st)).
  rw (get_all_reports_eq st Hk) Hok length_map_enum.
  split; [done|]. split; [done|]. intros i d Hi.
  exists (report_summary (Z.of_nat i) d).
  rw lookup_map_enum Hi. cbn. split; [done|]. split; [done|].
  assert (Hd : d ∈ reports_db st) by (by eapply list_elem_of_lookup_2).
  assert (Hs : summary_ok d = true).
  { rw forallb_forall in Hok. apply Hok. by apply list_elem_of_In. }
  rw /summary_ok !andb_true_iff in Hs. destruct Hs as [[[[H1 _] _] H4] _].
  pose proof (proj1 (Forall_forall _ _) Hk d Hd) as Hkd.
  assert (His : is_Some (d !! "issue")) by key_present Hkd.
  destruct His as [v Hv]. rw /get Hv /= in H1. rw /get Hv /=.
  destruct v; [done|]. split; [done|].
  rw /get in H4. by destruct (default (PStr "Moderate") (d !! "seriousness")).
Qed.

(** ** User dashboard *)

Lemma report_history_item_eq index d :
  has_keys report_keys d ->
  report_history_item index d
  = if history_ok d then Ok (history_item index d)
    else Raise (ValidationError "ReportHistoryItem").
Proof.
  intros Hd. rw /report_history_item /history_ok /history_item.
  rw !getitem_get; try key_present Hd. cbn.
  destruct (get d "issue" PNone); [done|].
  destruct (get d "category" PNone); [done|].
  by destruct (get d "status" (PStr "Unresolved")).
Qed.

Lemma notification_eq d :
  has_keys report_keys d -> notification d = Ok (notification_text d).
Proof.
  intros Hd. rw /notification getitem_get; [key_present Hd|]. done.
Qed.

Lemma has_keys_email d : has_keys report_keys d -> has_email_key d.
Proof. intros Hd. rw /has_email_key. key_present Hd. Qed.

Lemma Forall_list_filter {A} (P : A -> Prop) (p : A -> bool) (l : list A) :
  Forall P l -> Forall P (List.filter p l).
Proof.
  rw !Forall_forall. intros H x Hx. apply H.
  apply list_elem_of_In in Hx. apply filter_In in Hx as [Hx _].
  by apply list_elem_of_In.
Qed.

(** The endpoint on any store whose reports have the keys that
    [report.dict()] writes: only the reports with the queried email are
    looked at; the response exists exactly when each of them yields a valid
    history item. *)
Lemma get_user_dashboard_eq email st :
  Forall (has_keys report_keys) (reports_db st) ->
  get_user_dashboard email st
  = if forallb history_ok (List.filter (email_matches email) (reports_db st))
    then Ok (user_dashboard_of
               (List.filter (email_matches email) (reports_db st)))
    else Raise (ValidationError "ReportHistoryItem").
Proof.
  intros Hk. rw /get_user_dashboard py_filter_email.
  { eapply Forall_impl; [exact Hk|]. apply has_keys_email. }
  cbn [bind].
  set (ur := List.filter (email_matches email) (reports_db st)).
  assert (Hur : Forall (has_keys report_keys) ur)
    by (by apply Forall_list_filter).
  rw (py_map_enum_uniform report_history_item history_item history_ok
        (ValidationError "ReportHistoryItem")).
  { intros i x Hx. apply report_history_item_eq.
    by apply (proj1 (Forall_forall _ _) Hur). }
  destruct (forallb history_ok ur); [|done]. cbn [bind].
  rw (py_map_uniform notification notification_text (fun _ => true)
        (ValidationError "ReportHistoryItem")).
  { intros x Hx. apply notification_eq.
    apply list_elem_of_filter in Hx as [_ Hx].
    by apply (proj1 (Forall_forall _ _) Hur). }
  assert (Ht : forall l : list (gmap string pyval),
             forallb (fun _ => true) l = true) by (by induction l).
  by rw Ht.
Qed.

(** X21: what the user dashboard returns whenever it answers: the counts
    are those of the reports with the queried email, and the history has
    one item per such report with ids 1, 2, .... *)
Lemma get_user_dashboard_counts email st :
  Forall (has_keys report_keys) (reports_db st) ->
  let user_reports := List.filter (email_matches email) (reports_db st) in
  forallb history_ok user_reports = true ->
  exists resp,
    get_user_dashboard email st = Ok resp /\
    let stats := UserDashboardResponse.userStats resp in
    let history := UserDashboardResponse.reportHistory resp in
    UserStats.totalReports stats = Z.of_nat (length user_reports) /\
    UserStats.resolvedReports stats = py_count is_resolved user_reports /\
    UserStats.unresolvedReports stats
      = UserStats.totalReports stats - UserStats.resolvedReports stats /\
    length history = length user_reports /\
    forall (i : nat) o, history !! i = Some o ->
      ReportHistoryItem.id o = Z.of_nat i + 1.
Proof.
  intros Hk ur Hok. exists (user_dashboard_of ur).
  rw (get_user_dashboard_eq email st Hk) -/ur Hok. cbn.
  rw length_map_enum. repeat split; try done.
  intros i o. rw lookup_map_enum. destruct (ur !! i); [|done].
  by intros [= <-].
Qed.

(** ** Reachable stores hold only stored-as-submitted records *)

Lemma register_user_reports user st :
  reports_db (snd (register_user user st)) = reports_db st.
Proof.
  rw /register_user.
  by destruct (py_any (email_is (User.email user)) (users_db st)) as [[]|].
Qed.

Lemma submit_report_users report st :
  users_db (snd (submit_report report st)) = users_db st.
Proof.
  pose proof (submit_report_store report st) as H.
  destruct (fst (submit_report report st)); by rw H.
Qed.

Lemma submit_report_submitted report st :
  Forall submitted (reports_db st) ->
  Forall submitted (reports_db (snd (submit_report report st))).
Proof.
  intros Hs. pose proof (submit_report_store report st) as H.
  destruct (fst (submit_report report st)); rw H; [|done].
  cbn. apply Forall_app. split; [done|].
  constructor; [by exists report|constructor].
Qed.

Lemma reachable_stored st :
  reachable st ->
  Forall registered (users_db st) /\ Forall submitted (reports_db st).
Proof.
  induction 1 as [|user st _ [IHu IHr]|report st _ [IHu IHr]].
  - split; constructor.
  - split; [by apply register_user_wf|by rw register_user_reports].
  - split; [by rw submit_report_users|by apply submit_report_submitted].
Qed.

Lemma Forall_submitted_keys (l : list (gmap string pyval)) :
  Forall submitted l -> Forall (has_keys report_keys) l.
Proof. intros H. eapply Forall_impl; [exact H|]. apply submitted_has_keys. Qed.

Lemma submitted_known_seriousness d : submitted d -> known_seriousness d.
Proof.
  intros [r ->].
  rw /known_seriousness /seriousness_label /get report_dict_seriousness.
  rw /seriousness_levels !elem_of_cons. tauto.
Qed.

(** Every store the service can build satisfies the side condition of the
    seriousness breakdown. *)
Lemma reachable_known_seriousness st :
  reachable st -> Forall known_seriousness (reports_db st).
Proof.
  intros Hr. destruct (reachable_stored st Hr) as [_ Hs].
  eapply Forall_impl; [exact Hs|]. apply submitted_known_seriousness.
Qed.

Lemma reachable_seriousness_in_levels st :
  reachable st -> Forall seriousness_in_levels (reports_db st).
Proof.
  intros Hr. destruct (reachable_stored st Hr) as [_ Hs].
  eapply Forall_impl; [exact Hs|]. intros d [r ->]. left.
  apply report_dict_seriousness.
Qed.

(** ** Authority dashboard: the issue list *)

Lemma issue_management_item_no_date index d :
  has_keys report_keys d -> d !! "date" = None ->
  issue_management_item index d = Raise (KeyError (PStr "date")).
Proof.
  intros Hd Hdate. rw /issue_management_item.
  rw (getitem_get d "issue"); [key_present Hd|].
  rw (getitem_get d "category"); [key_present Hd|]. cbn [bind].
  by rw /getitem Hdate.
Qed.

Lemma issue_list_no_date d (l : list (gmap string pyval)) :
  has_keys report_keys d -> d !! "date" = None ->
  issue_list (d :: l) = Raise (KeyError (PStr "date")).
Proof.
  intros Hd Hdate. rw /issue_list. cbn [py_map_enum].
  by rw issue_management_item_no_date.
Qed.

Lemma issues_by_seriousness_counts (reports : list (gmap string pyval)) :
  Forall known_seriousness reports ->
  issues_by_seriousness reports
    = Ok [IssueBySeriousness.mk "Low" (reports_at "Low" reports);
          IssueBySeriousness.mk "Moderate" (reports_at "Moderate" reports);
          IssueBySeriousness.mk "High" (reports_at "High" reports);
          IssueBySeriousness.mk "Critical" (reports_at "Critical" reports)].
Proof.
  intros Hk. rw /issues_by_seriousness /seriousness_init.
  by rw (seriousness_loop_counts 0 0 0 0 reports Hk).
Qed.

(** C1: on every non-empty store whose reports are all as the submission
    endpoint stores them, building [issueList] raises [KeyError('date')] at
    the first report.  The dashboard as a whole never answers on such a
    store: that error is what it raises unless some report has no category,
    in which case the category breakdown has already failed. *)
Theorem C1_issue_list_fails_without_date (st : db) :
  Forall submitted (reports_db st) ->
  reports_db st <> [] ->
  issue_list (reports_db st) = Raise (KeyError (PStr "date")) /\
  get_authority_dashboard st
    = Raise (if forallb is_str (map category_label (reports_db st))
             then KeyError (PStr "date")
             else ValidationError "IssueByCategory").
Proof.
  intros Hs Hne.
  assert (Hl : issue_list (reports_db st) = Raise (KeyError (PStr "date"))).
  { destruct (reports_db st) as [|d l]; [done|].
    apply Forall_cons in Hs as [[r ->] _].
    apply issue_list_no_date; [|apply report_dict_date].
    apply submitted_has_keys. by exists r. }
  split; [done|].
  rw /get_authority_dashboard issues_by_category_eq.
  destruct (forallb is_str (map category_label (reports_db st))); [|done].
  cbn [bind]. rw issues_by_seriousness_counts.
  { eapply Forall_impl; [exact Hs|]. apply submitted_known_seriousness. }
  cbn [bind]. by rw Hl.
Qed.

(** ** Reports stored without a category *)

Lemma summary_ok_no_category (r : Report.t) :
  Report.category r = None -> summary_ok (Report.dict r) = false.
Proof.
  intros Hc. by rw /summary_ok /get report_dict_issue report_dict_category Hc.
Qed.

Lemma history_ok_no_category (r : Report.t) :
  Report.category r = None -> history_ok (Report.dict r) = false.
Proof.
  intros Hc. by rw /history_ok /get report_dict_issue report_dict_category Hc.
Qed.

(** C9: in every reachable store that contains a report submitted without
    a category (stored with [category = None]), [/reports] fails response
    validation against [ReportOut], and the user dashboard of the
    submitter fails when it constructs the [ReportHistoryItem]. *)
Theorem C9_missing_category_breaks_reads (st : db) (r : Report.t) :
  reachable st ->
  Report.dict r ∈ reports_db st ->
  Report.category r = None ->
  get_all_reports st = Raise (ResponseValidationError "ReportOut") /\
  get_user_dashboard (Report.email r) st
    = Raise (ValidationError "ReportHistoryItem").
Proof.
  intros Hreach Hin Hc.
  destruct (reachable_stored st Hreach) as [_ Hs].
  apply Forall_submitted_keys in Hs. split.
  - rw (get_all_reports_eq st Hs).
    by rw (forallb_false_elem summary_ok _ _ Hin (summary_ok_no_category r Hc)).
  - rw (get_user_dashboard_eq _ st Hs).
    rw (forallb_false_elem history_ok _ (Report.dict r)) //.
    + apply list_elem_of_In, filter_In. split; [by apply list_elem_of_In|].
      apply email_matches_true, report_dict_email.
    + by apply history_ok_no_category.
Qed.

(** ** The concrete session *)

Lemma reachable_st_registered : reachable st_registered.
Proof. apply reach_register, reach_init. Defined.

Lemma reachable_st_pothole : reachable st_pothole.
Proof. apply reach_report, reachable_st_registered. Defined.

Lemma reachable_st_flood : reachable st_flood.
Proof. apply reach_report, reachable_st_pothole. Defined.

Lemma has_user_alice : has_user "a@x.com" st_registered.
Proof.
  exists (User.dict alice). split; [|reflexivity].
  apply list_elem_of_In. left. reflexivity.
Defined.

Lemma registered_st_registered : Forall registered (users_db st_registered).
Proof. apply (reachable_stored _ reachable_st_registered). Defined.

Lemma C1_witness :
  Forall submitted (reports_db st_pothole) /\
  reports_db st_pothole <> [] /\
  issue_list (reports_db st_pothole) = Raise (KeyError (PStr "date")) /\
  get_authority_dashboard st_pothole = Raise (KeyError (PStr "date")).
Proof.
  assert (Hs : Forall submitted (reports_db st_pothole))
    by apply (reachable_stored _ reachable_st_pothole).
  assert (Hne : reports_db st_pothole <> []) by discriminate.
  split; [exact Hs|]. split; [exact Hne|].
  exact (C1_issue_list_fails_without_date st_pothole Hs Hne).
Defined.

(** C2, as written, fails on an authority report whose category is the
    empty string: a user exists, the category is supplied, yet the handler
    answers BadRequest and stores nothing. *)
Lemma C2_blank_category_counterexample :
  ~ submit_report_contract not_supplied blank_category st_registered.
Proof.
  intros (_ & _ & _ & H).
  assert (E : submit_report blank_category st_registered
              = (Raise BadRequest_category, st_registered)) by reflexivity.
  rw E in H. discriminate H.
  - exact has_user_alice.
  - intros [_ Hc]. discriminate Hc.
  - intros [Ht _]. discriminate Ht.
Qed.

Lemma C2_witness :
  Forall registered (users_db st_registered) /\
  submit_report_contract falsy blank_category st_registered.
Proof.
  split; [exact registered_st_registered|].
  exact (C2_submit_report_contract blank_category st_registered
           registered_st_registered).
Defined.

Lemma C3_witness :
  Forall registered (users_db init_db) /\
  register_user alice init_db
    = (Ok "User registered successfully", mkdb [User.dict alice] []) /\
  register_user alice st_registered = (Raise Conflict, st_registered) /\
  length (users_db (snd (register_user alice st_registered))) = 1%nat.
Proof.
  assert (Hwf : Forall registered (users_db init_db)) by constructor.
  assert (Hn : ~ has_user (User.email alice) init_db).
  { intros (d & Hd & _). by apply elem_of_nil in Hd. }
  destruct (C3_register_conflict_iff_email_taken alice init_db Hwf)
    as (_ & _ & Hfresh & Htwice).
  destruct (Htwice alice eq_refl) as [Hsecond Hlen].
  split; [exact Hwf|]. split; [exact (Hfresh Hn)|].
  split; [exact Hsecond|exact (Hlen Hn)].
Defined.

Lemma rated_reports_in_levels : Forall seriousness_in_levels rated_reports.
Proof.
  repeat (constructor;
    [first [ left; reflexivity
           | right; left; reflexivity
           | right; right; left; reflexivity
           | right; right; right; left; reflexivity
           | right; right; right; right; reflexivity ] |]).
  constructor.
Defined.

Lemma C4_witness :
  Forall seriousness_in_levels rated_reports /\
  issues_by_seriousness rated_reports
    = Ok [IssueBySeriousness.mk "Low" 1; IssueBySeriousness.mk "Moderate" 2;
          IssueBySeriousness.mk "High" 2; IssueBySeriousness.mk "Critical" 1] /\
  1 + 2 + 2 + 1 = 6 /\
  GlobalStats.totalReports (global_stats rated_reports) = 6.
Proof.
  split; [exact rated_reports_in_levels|].
  exact (C4_issues_by_seriousness_four_buckets rated_reports
           rated_reports_in_levels).
Defined.

Lemma C6_witness :
  Forall registered (users_db st_registered) /\
  login_user (UserLogin.mk "a@x.com" "wrong") st_registered
    = Raise Unauthorized /\
  forall resp,
    login_user (UserLogin.mk "a@x.com" "p") st_registered = Ok resp ->
    LoginResponse.user resp !! "password" = None.
Proof.
  split; [exact registered_st_registered|].
  destruct (C6_login_unauthorized_iff (UserLogin.mk "a@x.com" "wrong")
              st_registered registered_st_registered) as (Hiff & _ & _).
  destruct (C6_login_unauthorized_iff (UserLogin.mk "a@x.com" "p")
              st_registered registered_st_registered) as (_ & _ & Hok).
  split.
  - apply Hiff. right. exists (User.dict alice). split; [reflexivity|].
    discriminate.
  - intros resp Hresp. destruct (Hok resp Hresp) as (d & _ & _ & _ & _ & Hp).
    exact Hp.
Defined.

Lemma C9_witness :
  reachable st_flood /\
  Report.dict flood ∈ reports_db st_flood /\
  Report.type flood = "community" /\
  Report.category flood = None /\
  get_all_reports st_flood = Raise (ResponseValidationError "ReportOut") /\
  get_user_dashboard "a@x.com" st_flood
    = Raise (ValidationError "ReportHistoryItem").
Proof.
  assert (Hin : Report.dict flood ∈ reports_db st_flood).
  { apply list_elem_of_In. right. left. reflexivity. }
  split; [exact reachable_st_flood|]. split; [exact Hin|].
  split; [reflexivity|]. split; [reflexivity|].
  exact (C9_missing_category_breaks_reads st_flood flood reachable_st_flood
           Hin eq_refl).
Defined.

(** ** Where the handlers leave their contract *)

(** C5: after the registered user has submitted a community alert without
    a category, the dashboard queried with that user's email does not
    return counts and history: constructing the history item raises. *)
Theorem C5_user_dashboard_raises_on_uncategorised_report :
  reachable st_flood /\
  List.filter (email_matches "a@x.com") (reports_db st_flood)
    = reports_db st_flood /\
  length (reports_db st_flood) = 2%nat /\
  get_user_dashboard "a@x.com" st_flood
    = Raise (ValidationError "ReportHistoryItem").
Proof.
  split; [exact reachable_st_flood|]. by vm_compute.
Qed.

(** C7: on the same store [/reports] returns no summaries at all: the
    second report has [category = None], which [ReportOut] rejects. *)
Theorem C7_reports_listing_raises_on_uncategorised_report :
  reachable st_flood /\
  length (reports_db st_flood) = 2%nat /\
  get_all_reports st_flood = Raise (ResponseValidationError "ReportOut").
Proof.
  split; [exact reachable_st_flood|]. by vm_compute.
Qed.

(** C8: on the same store the report without a category is tallied under
    the key [None], not under "Other", and turning that pair into an
    [IssueByCategory] raises. *)
Theorem C8_missing_category_not_counted_as_other :
  reachable st_flood /\
  category_counts (reports_db st_flood) = [(PStr "Roads", 1); (PNone, 1)] /\
  issues_by_category (reports_db st_flood)
    = Raise (ValidationError "IssueByCategory").
Proof.
  split; [exact reachable_st_flood|]. by vm_compute.
Qed.

(** The [User] model accepts every body that [user.dict()] can produce:
    nothing about the text of [email] is checked. *)
Lemma User_validate_dict (u : User.t) : User_validate (User.dict u) = Ok u.
Proof. by destruct u. Qed.

Lemma register_request_any_email (u : User.t) (st : db) :
  register_request (User.dict u) st = register_user u st.
Proof. by rw /register_request User_validate_dict. Qed.

(** C10: a registration whose email is "not-an-email" passes schema
    validation and is appended to the user store. *)
Theorem C10_register_accepts_malformed_email :
  has_at (User.email malformed_user) = false /\
  register_request (User.dict malformed_user) init_db
    = (Ok "User registered successfully",
       mkdb [User.dict malformed_user] []).
Proof. by vm_compute. Qed.

(** * Further properties of the handlers *)

(** ** The stores are append-only *)

Lemma register_user_appends user st :
  users_db st `prefix_of` users_db (snd (register_user user st)).
Proof.
  rw /register_user.
  destruct (py_any (email_is (User.email user)) (users_db st)) as [[]|];
    cbn; try done.
  by apply prefix_app_r.
Qed.

Lemma submit_report_appends report st :
  reports_db st `prefix_of` reports_db (snd (submit_report report st)).
Proof.
  pose proof (submit_report_store report st) as H.
  destruct (fst (submit_report report st)); rw H; [|done].
  cbn. by apply prefix_app_r.
Qed.

Lemma step_appends st st' :
  step st st' ->
  users_db st `prefix_of` users_db st' /\
  reports_db st `prefix_of` reports_db st'.
Proof.
  destruct 1 as [user st|report st].
  - split; [apply register_user_appends|by rw register_user_reports].
  - split; [by rw submit_report_users|apply submit_report_appends].
Qed.

(** X1: whatever requests are served, both stores only grow at the end:
    records are never removed, reordered or overwritten, so a report keeps
    the position (and hence the id shown by the read endpoints) it had when
    it was stored. *)
Theorem later_stores_append_only (st st' : db) :
  later st st' ->
  users_db st `prefix_of` users_db st' /\
  reports_db st `prefix_of` reports_db st' /\
  (forall (i : nat) d,
     users_db st !! i = Some d -> users_db st' !! i = Some d) /\
  (forall (i : nat) d,
     reports_db st !! i = Some d -> reports_db st' !! i = Some d).
Proof.
  intros H.
  assert (Hp : users_db st `prefix_of` users_db st' /\
               reports_db st `prefix_of` reports_db st').
  { induction H as [st|st st1 st2 Hs _ [IHu IHr]]; [done|].
    destruct (step_appends _ _ Hs) as [Hu Hr].
    split; by etrans. }
  destruct Hp as [Hu Hr]. split; [done|]. split; [done|].
  split; intros i d Hi; by eapply prefix_lookup_Some.
Qed.

(** ** Invariants of the reachable stores *)

Lemma has_user_user_emails email st :
  has_user email st <-> Some (PStr email) ∈ user_emails st.
Proof.
  rw /has_user /user_emails list_elem_of_fmap. split.
  - intros (d & Hin & Hd). by exists d.
  - intros (d & Hd & Hin). by exists d.
Qed.

Lemma user_emails_register_fresh user st :
  Forall registered (users_db st) ->
  ~ has_user (User.email user) st ->
  user_emails (snd (register_user user st))
  = (user_emails st ++ [Some (PStr (User.email user))])%list.
Proof.
  intros Hwf Hn. rw (register_user_fresh user st Hwf Hn) /user_emails.
  cbn. by rw fmap_app.
Qed.

Lemma reachable_emails_NoDup st : reachable st -> NoDup (user_emails st).
Proof.
  induction 1 as [|user st Hr IH|report st Hr IH].
  - constructor.
  - destruct (reachable_stored st Hr) as [Hwf _].
    destruct (scan_users (User.email user) st Hwf) as [[Hy _]|[Hn _]].
    + by rw (register_user_taken user st Hwf Hy).
    + rw (user_emails_register_fresh user st Hwf Hn).
      apply NoDup_app. split; [done|]. split; [|apply NoDup_singleton].
      intros x Hx Hx'. apply list_elem_of_singleton in Hx'. subst x.
      by apply Hn, has_user_user_emails.
  - by rw /user_emails submit_report_users.
Qed.

(** X2: in every reachable store no two user records carry the same email,
    although the list itself enforces nothing: the scan in [register_user]
    keeps emails unique, so records at different positions always have
    different email entries. *)
Theorem reachable_user_emails_unique (st : db) :
  reachable st ->
  NoDup (user_emails st) /\
  forall (i j : nat) d1 d2,
    users_db st !! i = Some d1 -> users_db st !! j = Some d2 ->
    i <> j -> d1 !! "email" <> d2 !! "email".
Proof.
  intros Hr. pose proof (reachable_emails_NoDup st Hr) as Hnd.
  split; [done|]. intros i j d1 d2 Hi Hj Hne He. apply Hne.
  apply (NoDup_lookup (user_emails st) i j (d1 !! "email") Hnd).
  - by rw /user_emails list_lookup_fmap Hi.
  - by rw /user_emails list_lookup_fmap Hj /= He.
Qed.

Lemma has_user_register email user st :
  has_user email st -> has_user email (snd (register_user user st)).
Proof.
  intros (d & Hin & Hd). exists d. split; [|done].
  destruct (register_user_appends user st) as [k ->].
  apply elem_of_app. by left.
Qed.

(** What a successful submission has checked. *)
Lemma submit_report_ok_inv report st msg st' :
  Forall registered (users_db st) ->
  submit_report report st = (Ok msg, st') ->
  has_user (Report.email report) st /\
  ~ (Report.type report = "authority" /\ falsy (Report.category report)) /\
  ~ (Report.type report = "community" /\ falsy (Report.alertLevel report)) /\
  st' = mkdb (users_db st) (reports_db st ++ [Report.dict report]).
Proof.
  intros Hwf. rw /submit_report.
  destruct (scan_users (Report.email report) st Hwf) as [[Hy ->]|[Hn ->]];
    [|done].
  destruct (String.eqb (Report.type report) "authority"
            && negb (truthy (Report.category report))) eqn:Ea; [done|].
  destruct (String.eqb (Report.type report) "community"
            && negb (truthy (Report.alertLevel report))) eqn:Ec; [done|].
  intros [= _ <-]. split; [done|].
  split; [by rw -authority_guard Ea|]. split; [by rw -community_guard Ec|done].
Qed.

Lemma submit_report_cases report st :
  snd (submit_report report st) = st \/
  exists msg,
    submit_report report st
    = (Ok msg, mkdb (users_db st) (reports_db st ++ [Report.dict report])).
Proof.
  pose proof (submit_report_store report st) as H.
  destruct (submit_report report st) as [[msg|e] st'] eqn:E; cbn in H.
  - right. exists msg. by rw H.
  - by left.
Qed.

(** X3: in every reachable store the email of each report is the email of a
    stored user: the existence check at submission time, together with the
    fact that users are never removed, keeps the soft reference valid. *)
Theorem reachable_reports_have_users (st : db) :
  reachable st ->
  forall d, d ∈ reports_db st ->
    exists email, d !! "email" = Some (PStr email) /\ has_user email st.
Proof.
  induction 1 as [|user st Hr IH|report st Hr IH]; intros d Hd.
  - by apply elem_of_nil in Hd.
  - rw register_user_reports in Hd. destruct (IH d Hd) as (e & He & Hu).
    exists e. split; [done|]. by apply has_user_register.
  - destruct (reachable_stored st Hr) as [Hwf _].
    destruct (submit_report_cases report st) as [E|[msg E]].
    + rw E in Hd. rw E. by apply IH.
    + destruct (submit_report_ok_inv report st msg _ Hwf E) as (Hu & _).
      rw E in Hd. rw E. cbn in Hd. apply elem_of_app in Hd as [Hd|Hd].
      * destruct (IH d Hd) as (e & He & (u & Hin & Hue)).
        exists e. split; [done|]. by exists u.
      * apply list_elem_of_singleton in Hd. subst d.
        exists (Report.email report). split; [apply report_dict_email|].
        destruct Hu as (u & Hin & Hue). by exists u.
Qed.

Lemma truthy_opt_val (o : option string) :
  ~ falsy o -> exists s, opt_val o = PStr s /\ s <> "".
Proof.
  rw falsy_cases. destruct o as [s|]; [|tauto].
  intros H. exists s. split; [done|]. intros ->. tauto.
Qed.

(** X4: in every reachable store a report of type "authority" has a
    non-empty category and a report of type "community" a non-empty alert
    level; reports of any other type are stored without either check. *)
Theorem reachable_reports_conditional_fields (st : db) :
  reachable st ->
  forall d, d ∈ reports_db st ->
    (d !! "type" = Some (PStr "authority") ->
       exists c, d !! "category" = Some (PStr c) /\ c <> "") /\
    (d !! "type" = Some (PStr "community") ->
       exists a, d !! "alertLevel" = Some (PStr a) /\ a <> "").
Proof.
  induction 1 as [|user st Hr IH|report st Hr IH]; intros d Hd.
  - by apply elem_of_nil in Hd.
  - rw register_user_reports in Hd. by apply IH.
  - destruct (reachable_stored st Hr) as [Hwf _].
    destruct (submit_report_cases report st) as [E|[msg E]].
    + rw E in Hd. by apply IH.
    + destruct (submit_report_ok_inv report st msg _ Hwf E)
        as (_ & Ha & Hc & _).
      rw E in Hd. cbn in Hd. apply elem_of_app in Hd as [Hd|Hd];
        [by apply IH|].
      apply list_elem_of_singleton in Hd. subst d. split.
      * intros Ht. assert (Et : Report.type report = "authority")
          by (assert (Some (PStr (Report.type report))
                      = Some (PStr "authority")) by done; congruence).
        destruct (truthy_opt_val (Report.category report)) as (c & Ec & Hc');
          [tauto|]. exists c. split; [|done].
        by rw report_dict_category Ec.
      * intros Ht. assert (Et : Report.type report = "community")
          by (assert (Some (PStr (Report.type report))
                      = Some (PStr "community")) by done; congruence).
        destruct (truthy_opt_val (Report.alertLevel report))
          as (a & Ea & Ha'); [tauto|]. exists a. split; [|done].
        assert (El : Report.dict report !! "alertLevel"
                     = Some (opt_val (Report.alertLevel report))) by done.
        by rw El Ea.
Qed.

(** ** Login after registration *)

Lemma NoDup_fmap_eq {A B} (f : A -> B) (l : list A) (x y : A) :
  NoDup (f <$> l) -> x ∈ l -> y ∈ l -> f x = f y -> x = y.
Proof.
  intros Hnd Hx Hy Hf.
  apply list_elem_of_lookup in Hx as [i Hi].
  apply list_elem_of_lookup in Hy as [j Hj].
  assert (i = j).
  { apply (NoDup_lookup (f <$> l) i j (f x) Hnd).
    - by rw list_lookup_fmap Hi.
    - by rw list_lookup_fmap Hj /= Hf. }
  subst j. congruence.
Qed.

(** In a reachable store the scan of [login_user] can only stop at the one
    record with the queried email. *)
Lemma login_user_member (u : User.t) (pw : string) (st : db) :
  reachable st ->
  User.dict u ∈ users_db st ->
  login_user (UserLogin.mk (User.email u) pw) st
  = if bool_decide (User.password u = pw) then Ok (login_response u)
    else Raise Unauthorized.
Proof.
  intros Hr Hin. destruct (reachable_stored st Hr) as [Hwf _].
  destruct (List.find (email_matches (User.email u)) (users_db st))
    as [d|] eqn:F.
  - pose proof (find_some _ _ F) as [Hd Hm].
    apply list_elem_of_In in Hd. apply email_matches_true in Hm.
    assert (d = User.dict u) as ->.
    { apply (NoDup_fmap_eq (fun d : gmap string pyval => d !! "email")
               (users_db st)); [by apply reachable_emails_NoDup|done|done|].
      by rw Hm user_dict_email. }
    by rw (login_user_found (UserLogin.mk (User.email u) pw) st u Hwf F).
  - apply find_email_none in F. destruct F. exists (User.dict u).
    split; [done|apply user_dict_email].
Qed.

(** X5: in every reachable store, logging in with the email of a stored
    user succeeds exactly when the supplied password is that user's, and
    then returns that user's name, email, role and location. *)
Theorem login_user_stored_user (u : User.t) (pw : string) (st : db) :
  reachable st ->
  User.dict u ∈ users_db st ->
  (pw = User.password u ->
     login_user (UserLogin.mk (User.email u) pw) st = Ok (login_response u)) /\
  (pw <> User.password u ->
     login_user (UserLogin.mk (User.email u) pw) st = Raise Unauthorized).
Proof.
  intros Hr Hin. rw (login_user_member u pw st Hr Hin).
  split; intros H.
  - by rw bool_decide_eq_true_2.
  - by rw bool_decide_eq_false_2.
Qed.

(** X6: registering a user whose email is not yet stored and then logging
    in with the same email and password succeeds and returns the registered
    name, email, role and location. *)
Theorem register_then_login (u : User.t) (st : db) :
  reachable st ->
  ~ has_user (User.email u) st ->
  fst (register_user u st) = Ok "User registered successfully" /\
  login_user (UserLogin.mk (User.email u) (User.password u))
    (snd (register_user u st))
  = Ok (login_response u).
Proof.
  intros Hr Hn. destruct (reachable_stored st Hr) as [Hwf _].
  split; [by rw (register_user_fresh u st Hwf Hn)|].
  rw (login_user_member u (User.password u)).
  - by apply reach_register.
  - rw (register_user_fresh u st Hwf Hn). cbn.
    apply elem_of_app. right. by apply list_elem_of_singleton.
  - by rw bool_decide_eq_true_2.
Qed.

(** ** The read endpoints on stores of submitted records *)

Lemma map_enum_map_ext {A B C} (f : A -> B) (g : Z -> B -> C)
    (g' : Z -> A -> C) start (l : list A) :
  (forall i x, x ∈ l -> g i (f x) = g' i x) ->
  map_enum g start (map f l) = map_enum g' start l.
Proof.
  revert start. induction l as [|x l IH]; intros start H; [done|].
  cbn. rw H; [by left|]. rw IH; [|done]. intros i y Hy. apply H. by right.
Qed.

Lemma map_enum_snoc {A B} (g : Z -> A -> B) start (l : list A) (x : A) :
  map_enum g start (l ++ [x])
  = (map_enum g start l ++ [g (start + Z.of_nat (length l)) x])%list.
Proof.
  revert start. induction l as [|y l IH]; intros start.
  - cbn. by rw Z.add_0_r.
  - cbn [app map_enum length]. rw IH Nat2Z.inj_succ.
    by replace (start + 1 + Z.of_nat (length l))
      with (start + Z.succ (Z.of_nat (length l))) by lia.
Qed.

Lemma forallb_map {A B} (p : B -> bool) (f : A -> B) (l : list A) :
  forallb p (map f l) = forallb (fun x => p (f x)) l.
Proof. induction l as [|x l IH]; [done|]. cbn. by rw IH. Qed.

Lemma forallb_ext {A} (p q : A -> bool) (l : list A) :
  (forall x, p x = q x) -> forallb p l = forallb q l.
Proof. intros H. induction l as [|x l IH]; [done|]. cbn. by rw H IH. Qed.

Lemma forallb_has_category_elem (rs : list Report.t) (r : Report.t) :
  forallb has_category rs = true -> r ∈ rs ->
  exists c, Report.category r = Some c.
Proof.
  rw forallb_forall. intros H Hr. apply list_elem_of_In in Hr.
  specialize (H r Hr). rw /has_category in H.
  destruct (Report.category r) as [c|]; [by exists c|done].
Qed.

Lemma summary_ok_dict (r : Report.t) :
  summary_ok (Report.dict r) = has_category r.
Proof.
  rw /summary_ok /get report_dict_issue report_dict_category
     report_dict_location report_dict_seriousness report_dict_description
     /has_category.
  by destruct (Report.category r).
Qed.

Lemma history_ok_dict (r : Report.t) :
  history_ok (Report.dict r) = has_category r.
Proof.
  rw /history_ok /get report_dict_issue report_dict_category
     report_dict_status /has_category.
  by destruct (Report.category r).
Qed.

Lemma Forall_dict_keys (rs : list Report.t) :
  Forall (has_keys report_keys) (map Report.dict rs).
Proof.
  apply Forall_forall. intros d Hd. apply list_elem_of_In in Hd.
  apply in_map_iff in Hd as (r & <- & _). apply submitted_has_keys.
  by exists r.
Qed.

Lemma submitted_records (l : list (gmap string pyval)) :
  Forall submitted l -> exists rs, l = map Report.dict rs.
Proof.
  induction 1 as [|d l [r ->] _ [rs ->]]; [by exists []|].
  by exists (r :: rs).
Qed.

(** X7: on a store holding the dictionaries of the submitted reports [rs],
    [/reports] answers exactly when every report was submitted with a
    category; it then lists every report in submission order with ids 1, 2,
    ..., its issue as title, and always the seriousness "Moderate", because
    nothing ever stores a seriousness. *)
Theorem get_all_reports_of_records (us : list (gmap string pyval))
    (rs : list Report.t) :
  get_all_reports (mkdb us (map Report.dict rs))
  = if forallb has_category rs then Ok (map_enum summary_of 0 rs)
    else Raise (ResponseValidationError "ReportOut").
Proof.
  rw get_all_reports_eq; [apply Forall_dict_keys|]. cbn [reports_db].
  rw forallb_map (forallb_ext _ has_category _ summary_ok_dict).
  destruct (forallb has_category rs) eqn:E; [|done]. f_equal.
  apply map_enum_map_ext. intros i r Hr.
  destruct (forallb_has_category_elem rs r E Hr) as [c Hc].
  rw /report_summary /summary_of /get report_dict_issue report_dict_category
     report_dict_location report_dict_seriousness report_dict_description Hc.
  done.
Qed.

Lemma filter_dict_email email (rs : list Report.t) :
  List.filter (email_matches email) (map Report.dict rs)
  = map Report.dict (reports_of email rs).
Proof.
  induction rs as [|r rs IH]; [done|]. cbn [map List.filter reports_of].
  assert (E : email_matches email (Report.dict r)
              = String.eqb (Report.email r) email).
  { rw /email_matches report_dict_email.
    destruct (String.eqb_spec (Report.email r) email) as [->|Hne].
    - by apply bool_decide_eq_true_2.
    - apply bool_decide_eq_false_2. congruence. }
  rw E. rw /reports_of in IH. rw IH.
  by destruct (String.eqb (Report.email r) email).
Qed.

Lemma is_resolved_dict (r : Report.t) : is_resolved (Report.dict r) = false.
Proof. by rw /is_resolved /get report_dict_status. Qed.

Lemma no_resolved_dict (rs : list Report.t) :
  filter (fun d => is_resolved d = true) (map Report.dict rs) = [].
Proof.
  induction rs as [|r rs IH]; [done|]. cbn [map].
  rw filter_cons_False; [by rw is_resolved_dict|]. done.
Qed.

(** X8: on a store holding the dictionaries of the submitted reports [rs],
    the user dashboard looks only at the reports submitted with the queried
    email.  It answers exactly when each of them has a category, and then
    reports their number as total and as unresolved, zero resolved, one
    history item per report with ids 1, 2, ... and status "Unresolved", and
    no notification. *)
Theorem get_user_dashboard_of_records (email : string)
    (us : list (gmap string pyval)) (rs : list Report.t) :
  get_user_dashboard email (mkdb us (map Report.dict rs))
  = if forallb has_category (reports_of email rs)
    then Ok (UserDashboardResponse.mk
               (UserStats.mk (Z.of_nat (length (reports_of email rs))) 0
                  (Z.of_nat (length (reports_of email rs))))
               (map_enum history_of 0 (reports_of email rs)) [])
    else Raise (ValidationError "ReportHistoryItem").
Proof.
  rw get_user_dashboard_eq; [apply Forall_dict_keys|]. cbn [reports_db].
  rw filter_dict_email.
  rw forallb_map (forallb_ext _ has_category _ history_ok_dict).
  destruct (forallb has_category (reports_of email rs)) eqn:E; [|done].
  rw /user_dashboard_of /py_count no_resolved_dict length_map. cbn [length map].
  rw Z.sub_0_r. do 2 f_equal.
  apply map_enum_map_ext. intros i r Hr.
  destruct (forallb_has_category_elem _ r E Hr) as [c Hc].
  by rw /history_item /history_of /get report_dict_issue report_dict_category
        report_dict_status Hc.
Qed.

(** ** How submissions show up in the read endpoints *)

Lemma reachable_report_keys st :
  reachable st -> Forall (has_keys report_keys) (reports_db st).
Proof.
  intros Hr. destruct (reachable_stored st Hr) as [_ Hs].
  by apply Forall_submitted_keys.
Qed.

Lemma email_matches_other email (r : Report.t) :
  Report.email r <> email -> email_matches email (Report.dict r) = false.
Proof.
  intros Hne. rw /email_matches report_dict_email.
  apply bool_decide_eq_false_2. congruence.
Qed.

(** X9: the dashboard of one email is unaffected by what others do: a
    registration, or a submission made with a different email, leaves the
    answer for that email (response or error) exactly as it was. *)
Theorem get_user_dashboard_unaffected_by_others (email : string) (st : db) :
  reachable st ->
  (forall user,
     get_user_dashboard email (snd (register_user user st))
     = get_user_dashboard email st) /\
  (forall report, Report.email report <> email ->
     get_user_dashboard email (snd (submit_report report st))
     = get_user_dashboard email st).
Proof.
  intros Hr. pose proof (reachable_report_keys st Hr) as Hk. split.
  - intros user. by rw /get_user_dashboard register_user_reports.
  - intros report Hne.
    destruct (submit_report_cases report st) as [E|[msg E]]; [by rw E|].
    rw (get_user_dashboard_eq email st Hk).
    rw get_user_dashboard_eq.
    { apply reachable_report_keys. by apply reach_report. }
    rw E. cbn [snd reports_db]. rw List.filter_app. cbn [List.filter].
    by rw (email_matches_other email report Hne) app_nil_r.
Qed.

(** X10: when [/reports] answers and a submission then succeeds, the new
    listing is the old one followed by one summary with the next id, the
    submitted issue, category, location and description and seriousness
    "Moderate"; if the report was submitted without a category, [/reports]
    stops answering. *)
Theorem submit_then_get_all_reports (report : Report.t) (st st' : db)
    (msg : string) (out : list ReportOut.t) :
  reachable st ->
  get_all_reports st = Ok out ->
  submit_report report st = (Ok msg, st') ->
  get_all_reports st'
  = match Report.category report with
    | Some c =>
        Ok (out ++ [ReportOut.mk (Z.of_nat (length out) + 1)
                      (Report.issue report) c (Report.location report)
                      "Moderate" (Report.description report)])%list
    | None => Raise (ResponseValidationError "ReportOut")
    end.
Proof.
  intros Hr Hout Hsub.
  pose proof (reachable_report_keys st Hr) as Hk.
  destruct (reachable_stored st Hr) as [Hwf _].
  destruct (submit_report_ok_inv report st msg st' Hwf Hsub) as (_ & _ & _ & ->).
  rw (get_all_reports_eq st Hk) in Hout.
  destruct (forallb summary_ok (reports_db st)) eqn:E; [|done].
  injection Hout as <-.
  rw get_all_reports_eq.
  { cbn. apply Forall_app. split; [done|]. constructor; [|constructor].
    apply submitted_has_keys. by exists report. }
  cbn [reports_db]. rw forallb_app E. cbn [forallb andb].
  rw summary_ok_dict /has_category andb_true_r.
  destruct (Report.category report) as [c|] eqn:Ec; [|done].
  rw map_enum_snoc length_map_enum. do 2 f_equal.
  by rw /report_summary /get report_dict_issue report_dict_category
        report_dict_location report_dict_seriousness report_dict_description
        Ec.
Qed.

Lemma filter_no_match {A} (p : A -> bool) (l : list A) :
  (forall x, x ∈ l -> p x = false) -> List.filter p l = [].
Proof.
  induction l as [|x l IH]; intros H; [done|]. cbn.
  rw H; [by left|]. apply IH. intros y Hy. apply H. by right.
Qed.

(** X11: the user dashboard never checks that the email belongs to a
    registered user: for an email with no stored report it answers with
    zero counts, an empty history and no notification, even when reports
    of other users make [/reports] fail. *)
Theorem get_user_dashboard_without_reports (email : string) (st : db) :
  reachable st ->
  (forall d, d ∈ reports_db st -> d !! "email" <> Some (PStr email)) ->
  get_user_dashboard email st
  = Ok (UserDashboardResponse.mk (UserStats.mk 0 0 0) [] []).
Proof.
  intros Hr Hnone.
  rw (get_user_dashboard_eq email st (reachable_report_keys st Hr)).
  rw filter_no_match; [|done].
  intros d Hd. apply bool_decide_eq_false_2. by apply Hnone.
Qed.

(** ** Authority dashboard: the global counts *)

Lemma py_count_cons {A} (p : A -> bool) (x : A) (l : list A) :
  py_count p (x :: l) = (if p x then 1 else 0) + py_count p l.
Proof.
  rw /py_count. destruct (p x) eqn:E.
  - rw filter_cons_True; [done|]. cbn [length]. lia.
  - rw filter_cons_False; [congruence|]. lia.
Qed.

Lemma py_count_bounds {A} (p : A -> bool) (l : list A) :
  0 <= py_count p l <= Z.of_nat (length l).
Proof.
  induction l as [|x l IH]; [done|].
  rw py_count_cons length_cons Nat2Z.inj_succ. destruct (p x); lia.
Qed.

(** X12: for every store the global counts are consistent: the total is the
    number of reports, resolved and unresolved add up to it, and neither
    the unresolved nor the high-priority count can be negative or exceed
    the total. *)
Theorem global_stats_consistent (reports : list (gmap string pyval)) :
  let g := global_stats reports in
  GlobalStats.totalReports g = Z.of_nat (length reports) /\
  GlobalStats.resolvedReports g + GlobalStats.unresolvedReports g
    = GlobalStats.totalReports g /\
  0 <= GlobalStats.resolvedReports g <= GlobalStats.totalReports g /\
  0 <= GlobalStats.unresolvedReports g <= GlobalStats.totalReports g /\
  0 <= GlobalStats.highPriorityReports g <= GlobalStats.totalReports g.
Proof.
  cbn.
  pose proof (py_count_bounds is_resolved reports).
  pose proof (py_count_bounds is_high_priority reports).
  repeat split; lia.
Qed.



Lemma get_authority_dashboard_no_reports (st : db) :
  reports_db st = [] ->
  get_authority_dashboard st
  = Ok (AuthorityDashboardResponse.mk (GlobalStats.mk 0 0 0 0) []
          [IssueBySeriousness.mk "Low" 0; IssueBySeriousness.mk "Moderate" 0;
           IssueBySeriousness.mk "High" 0; IssueBySeriousness.mk "Critical" 0]
          []).
Proof. intros H. by rw /get_authority_dashboard H. Qed.

Lemma get_authority_dashboard_submitted_raises (st : db) :
  Forall submitted (reports_db st) ->
  reports_db st <> [] ->
  is_ok (get_authority_dashboard st) = false.
Proof.
  intros Hs Hne. rw /get_authority_dashboard issues_by_category_eq.
  destruct (forallb is_str (map category_label (reports_db st))); [|done].
  cbn [bind]. rw issues_by_seriousness_counts.
  { eapply Forall_impl; [exact Hs|]. apply submitted_known_seriousness. }
  cbn [bind]. destruct (reports_db st) as [|d l]; [done|].
  apply Forall_cons in Hs as [Hd _].
  rw (issue_list_no_date d l (submitted_has_keys d Hd)); [|done].
  destruct Hd as [r ->]. apply report_dict_date.
Qed.

(** X14: on a reachable store the authority dashboard answers if and only
    if no report has been stored yet; its answer is then all four global
    counts zero, an empty category breakdown, the four seriousness buckets
    with count zero, and an empty issue list. *)
Theorem get_authority_dashboard_answers_iff_empty (st : db) :
  reachable st ->
  (is_ok (get_authority_dashboard st) = true <-> reports_db st = []) /\
  (reports_db st = [] ->
     get_authority_dashboard st
     = Ok (AuthorityDashboardResponse.mk (GlobalStats.mk 0 0 0 0) []
             [IssueBySeriousness.mk "Low" 0;
              IssueBySeriousness.mk "Moderate" 0;
              IssueBySeriousness.mk "High" 0;
              IssueBySeriousness.mk "Critical" 0]
             [])).
Proof.
  intros Hr. destruct (reachable_stored st Hr) as [_ Hs]. split.
  - split.
    + intros Hok. destruct (reports_db st) as [|d l] eqn:E; [done|].
      rw get_authority_dashboard_submitted_raises in Hok; try done.
      * by rw E.
      * by rw E.
    + intros E. by rw (get_authority_dashboard_no_reports st E).
  - apply get_authority_dashboard_no_reports.
Qed.

(** ** Authority dashboard: when it answers, and how it fails *)

Lemma dashboard_ready_item index d :
  dashboard_ready d ->
  issue_management_item index d = Ok (issue_item index d).
Proof.
  intros ((ti & Hi) & (c & Hc) & (da & Hd) & Hs & Hst).
  rw /issue_management_item /issue_item /getitem /get Hi Hc Hd. cbn [bind].
  apply known_seriousness_cases in Hs. rw /seriousness_label /get in Hs.
  assert (exists s, default (PStr "Moderate") (d !! "seriousness") = PStr s)
    as [s ->] by (destruct Hs as [E|[E|[E|E]]]; rw E; eauto).
  assert (exists s', default (PStr "Unresolved") (d !! "status") = PStr s')
    as [s' ->].
  { destruct Hst as [->|[s' ->]]; cbn; eauto. }
  done.
Qed.

Lemma dashboard_ready_category d :
  dashboard_ready d -> is_str (category_label d) = true.
Proof. intros (_ & (c & Hc) & _). by rw /category_label /get Hc. Qed.

(** X15: on every store whose reports carry a string issue, category and
    date, a seriousness that is absent or one of the four levels, and a
    status that is absent or a string, the authority dashboard answers
    with the global counts, the first-seen category tally, the four
    seriousness buckets and one issue per report with ids 1, 2, ... and the
    defaults "Moderate" and "Unresolved". *)
Theorem get_authority_dashboard_ready (st : db) :
  Forall dashboard_ready (reports_db st) ->
  get_authority_dashboard st = Ok (authority_dashboard_of (reports_db st)).
Proof.
  intros Hready. rw /get_authority_dashboard issues_by_category_eq.
  assert (Hc : forallb is_str (map category_label (reports_db st)) = true).
  { apply forallb_forall. intros v Hv.
    apply in_map_iff in Hv as (d & <- & Hd). apply dashboard_ready_category.
    apply (proj1 (Forall_forall _ _) Hready). by apply list_elem_of_In. }
  rw Hc. cbn [bind]. rw issues_by_seriousness_counts.
  { eapply Forall_impl; [exact Hready|]. by intros d (_ & _ & _ & Hs & _). }
  cbn [bind].
  rw /issue_list
     (py_map_enum_uniform issue_management_item issue_item (fun _ => true)
        (KeyError PNone)).
  { intros i d Hd. apply dashboard_ready_item.
    by apply (proj1 (Forall_forall _ _) Hready). }
  assert (Ht : forall l : list (gmap string pyval),
             forallb (fun _ => true) l = true) by (by induction l).
  by rw Ht.
Qed.

Lemma unknown_seriousness_lookup (a b c e : Z) (d : gmap string pyval) :
  ~ known_seriousness d ->
  dict_get
    [(PStr "Low", a); (PStr "Moderate", b); (PStr "High", c);
     (PStr "Critical", e)] (seriousness_label d) = None.
Proof.
  rw /known_seriousness /seriousness_levels !elem_of_cons elem_of_nil.
  intros Hn. cbn [dict_get].
  rw !bool_decide_eq_false_2; try done; intros E; apply Hn; rw -E; tauto.
Qed.

Lemma seriousness_loop_unknown (a b c e : Z)
    (l1 l2 : list (gmap string pyval)) (d : gmap string pyval) :
  Forall known_seriousness l1 ->
  ~ known_seriousness d ->
  seriousness_loop
    [(PStr "Low", a); (PStr "Moderate", b); (PStr "High", c);
     (PStr "Critical", e)] (l1 ++ d :: l2)
  = Raise (KeyError (seriousness_label d)).
Proof.
  intros Hk Hn. revert a b c e.
  induction Hk as [|r l1 Hr _ IH]; intros a b c e.
  - cbn [app seriousness_loop]. rw -/(seriousness_label d).
    by rw unknown_seriousness_lookup.
  - cbn [app seriousness_loop]. rw -/(seriousness_label r).
    destruct (known_seriousness_cases r Hr) as [E|[E|[E|E]]]; rw E;
      cbn [dict_get dict_set]; decide_closed; cbv iota; apply IH.
Qed.

(** X16: if some report carries a seriousness outside Low, Moderate, High
    and Critical, the seriousness breakdown raises [KeyError] with the label
    of the first such report: the four buckets are never extended. *)
Theorem issues_by_seriousness_unknown_label
    (l1 l2 : list (gmap string pyval)) (d : gmap string pyval) :
  Forall known_seriousness l1 ->
  ~ known_seriousness d ->
  issues_by_seriousness (l1 ++ d :: l2)
  = Raise (KeyError (seriousness_label d)).
Proof.
  intros Hk Hn. rw /issues_by_seriousness /seriousness_init.
  by rw (seriousness_loop_unknown 0 0 0 0 l1 l2 d Hk Hn).
Qed.

(** ** User dashboard: notifications *)

(** X17: whenever the user dashboard answers, it holds one notification
    per resolved report of that email, in store order and quoting the
    report's issue; their number is [resolvedReports], and the unresolved
    count is never negative. *)
Theorem get_user_dashboard_notifications (email : string) (st : db)
    (resp : UserDashboardResponse.t) :
  Forall (has_keys report_keys) (reports_db st) ->
  get_user_dashboard email st = Ok resp ->
  let mine := List.filter (email_matches email) (reports_db st) in
  let stats := UserDashboardResponse.userStats resp in
  UserDashboardResponse.notifications resp
    = map notification_text (filter (fun d => is_resolved d = true) mine) /\
  Z.of_nat (length (UserDashboardResponse.notifications resp))
    = UserStats.resolvedReports stats /\
  0 <= UserStats.resolvedReports stats <= UserStats.totalReports stats /\
  0 <= UserStats.unresolvedReports stats.
Proof.
  intros Hk. rw (get_user_dashboard_eq email st Hk).
  destruct (forallb history_ok _); [|done]. intros [= <-]. cbn.
  pose proof (py_count_bounds is_resolved
                (List.filter (email_matches email) (reports_db st))) as Hb.
  split; [done|]. split; [by rw length_map|]. lia.
Qed.

(** ** Accounts persist *)

Lemma later_reachable st st' : reachable st -> later st st' -> reachable st'.
Proof.
  intros Hr H. induction H as [st|st st1 st2 Hs _ IH]; [done|].
  apply IH. destruct Hs; by constructor.
Qed.

(** X18: once a user is stored, no later sequence of registrations and
    submissions can change what login with that user's email and password
    returns. *)
Theorem login_survives_later_requests (u : User.t) (st st' : db) :
  reachable st ->
  User.dict u ∈ users_db st ->
  later st st' ->
  login_user (UserLogin.mk (User.email u) (User.password u)) st'
  = Ok (login_response u).
Proof.
  intros Hr Hin Hl.
  rw (login_user_member u (User.password u) st').
  - by eapply later_reachable.
  - assert (Hp : users_db st `prefix_of` users_db st').
    { clear Hr Hin. induction Hl as [st|st st1 st2 Hs _ IH]; [done|].
      destruct (step_appends _ _ Hs) as [Hu _]. by etrans. }
    destruct Hp as [k ->]. apply elem_of_app. by left.
  - by rw bool_decide_eq_true_2.
Qed.

(** ** The further properties on the concrete stores *)

Lemma later_init_st_flood : later init_db st_flood.
Proof.
  eapply rtc_l; [apply (step_register alice)|].
  eapply rtc_l; [apply (step_report pothole)|].
  eapply rtc_l; [apply (step_report flood)|]. apply rtc_refl.
Defined.

Lemma later_st_pothole_st_two_users : later st_pothole st_two_users.
Proof.
  eapply rtc_l; [apply (step_report flood)|].
  eapply rtc_l; [apply (step_register bob)|].
  eapply rtc_l; [apply (step_register alice_again)|]. apply rtc_refl.
Defined.

Lemma later_stores_append_only_witness :
  later st_pothole st_two_users /\
  users_db st_pothole !! 0%nat = Some (User.dict alice) /\
  reports_db st_pothole !! 0%nat = Some (Report.dict pothole) /\
  length (users_db st_two_users) = 2%nat /\
  length (reports_db st_two_users) = 2%nat /\
  users_db st_two_users !! 0%nat = Some (User.dict alice) /\
  reports_db st_two_users !! 0%nat = Some (Report.dict pothole).
Proof.
  destruct (later_stores_append_only st_pothole st_two_users
              later_st_pothole_st_two_users) as (_ & _ & Hu & Hr).
  split; [exact later_st_pothole_st_two_users|].
  split; [reflexivity|]. split; [reflexivity|].
  split; [reflexivity|]. split; [reflexivity|].
  split; [exact (Hu 0%nat (User.dict alice) eq_refl)|].
  exact (Hr 0%nat (Report.dict pothole) eq_refl).
Defined.

Lemma reachable_st_two_users : reachable st_two_users.
Proof. apply reach_register, reach_register, reachable_st_flood. Defined.

Lemma reachable_user_emails_unique_witness :
  reachable st_two_users /\
  users_db st_two_users !! 0%nat = Some (User.dict alice) /\
  users_db st_two_users !! 1%nat = Some (User.dict bob) /\
  users_db st_two_users !! 2%nat = None /\
  0%nat <> 1%nat /\
  user_emails st_two_users = [Some (PStr "a@x.com"); Some (PStr "b@x.com")] /\
  NoDup (user_emails st_two_users) /\
  User.dict alice !! "email" <> User.dict bob !! "email".
Proof.
  destruct (reachable_user_emails_unique st_two_users reachable_st_two_users)
    as [Hnd Hdiff].
  assert (Hne : 0%nat <> 1%nat) by discriminate.
  split; [exact reachable_st_two_users|].
  split; [reflexivity|]. split; [reflexivity|]. split; [reflexivity|].
  split; [exact Hne|]. split; [reflexivity|]. split; [exact Hnd|].
  exact (Hdiff 0%nat 1%nat (User.dict alice) (User.dict bob) eq_refl eq_refl
           Hne).
Defined.

Lemma flood_in_st_flood : Report.dict flood ∈ reports_db st_flood.
Proof. apply list_elem_of_In. right. left. reflexivity. Defined.

Lemma reachable_reports_have_users_witness :
  reachable st_flood /\
  Report.dict flood ∈ reports_db st_flood /\
  exists email,
    Report.dict flood !! "email" = Some (PStr email) /\ has_user email st_flood.
Proof.
  split; [exact reachable_st_flood|]. split; [exact flood_in_st_flood|].
  exact (reachable_reports_have_users st_flood reachable_st_flood
           (Report.dict flood) flood_in_st_flood).
Defined.

Lemma reachable_reports_conditional_fields_witness :
  reachable st_flood /\
  Report.dict flood ∈ reports_db st_flood /\
  Report.dict flood !! "type" = Some (PStr "community") /\
  exists a, Report.dict flood !! "alertLevel" = Some (PStr a) /\ a <> "".
Proof.
  split; [exact reachable_st_flood|]. split; [exact flood_in_st_flood|].
  split; [reflexivity|].
  exact (proj2 (reachable_reports_conditional_fields st_flood
                  reachable_st_flood (Report.dict flood) flood_in_st_flood)
           eq_refl).
Defined.

Lemma alice_in_st_registered : User.dict alice ∈ users_db st_registered.
Proof. apply list_elem_of_In. left. reflexivity. Defined.

Lemma login_user_stored_user_witness :
  reachable st_registered /\
  User.dict alice ∈ users_db st_registered /\
  login_user (UserLogin.mk "a@x.com" "p") st_registered
    = Ok (login_response alice) /\
  login_user (UserLogin.mk "a@x.com" "q") st_registered = Raise Unauthorized.
Proof.
  split; [exact reachable_st_registered|].
  split; [exact alice_in_st_registered|]. split.
  - exact (proj1 (login_user_stored_user alice "p" st_registered
                    reachable_st_registered alice_in_st_registered) eq_refl).
  - apply (proj2 (login_user_stored_user alice "q" st_registered
                    reachable_st_registered alice_in_st_registered)).
    discriminate.
Defined.

Lemma no_user_in_init_db email : ~ has_user email init_db.
Proof. intros (d & Hd & _). by apply elem_of_nil in Hd. Defined.

Lemma register_then_login_witness :
  reachable init_db /\
  ~ has_user (User.email alice) init_db /\
  fst (register_user alice init_db) = Ok "User registered successfully" /\
  login_user (UserLogin.mk "a@x.com" "p") st_registered
    = Ok (login_response alice).
Proof.
  split; [exact reach_init|]. split; [apply no_user_in_init_db|].
  exact (register_then_login alice init_db reach_init
           (no_user_in_init_db (User.email alice))).
Defined.

Lemma get_user_dashboard_unaffected_by_others_witness :
  reachable st_registered /\
  Report.email pothole <> "b@x.com" /\
  get_user_dashboard "b@x.com" st_pothole
    = get_user_dashboard "b@x.com" st_registered.
Proof.
  split; [exact reachable_st_registered|].
  assert (Hne : Report.email pothole <> "b@x.com") by discriminate.
  split; [exact Hne|].
  exact (proj2 (get_user_dashboard_unaffected_by_others "b@x.com"
                  st_registered reachable_st_registered) pothole Hne).
Defined.

Lemma submit_then_get_all_reports_witness :
  reachable st_registered /\
  get_all_reports st_registered = Ok [] /\
  submit_report pothole st_registered
    = (Ok "Report submitted successfully", st_pothole) /\
  get_all_reports st_pothole
    = Ok [ReportOut.mk 1 "Pothole" "Roads" "L" "Moderate" "d"].
Proof.
  split; [exact reachable_st_registered|]. split; [reflexivity|].
  split; [reflexivity|].
  exact (submit_then_get_all_reports pothole st_registered st_pothole
           "Report submitted successfully" [] reachable_st_registered
           eq_refl eq_refl).
Defined.

Lemma nobody_in_st_flood :
  forall d, d ∈ reports_db st_flood ->
    d !! "email" <> Some (PStr "nobody@x.com").
Proof.
  intros d Hd. apply list_elem_of_In in Hd.
  destruct Hd as [<-|[<-|[]]]; discriminate.
Defined.

Lemma get_user_dashboard_without_reports_witness :
  reachable st_flood /\
  (forall d, d ∈ reports_db st_flood ->
     d !! "email" <> Some (PStr "nobody@x.com")) /\
  get_user_dashboard "nobody@x.com" st_flood
    = Ok (UserDashboardResponse.mk (UserStats.mk 0 0 0) [] []).
Proof.
  split; [exact reachable_st_flood|]. split; [exact nobody_in_st_flood|].
  exact (get_user_dashboard_without_reports "nobody@x.com" st_flood
           reachable_st_flood nobody_in_st_flood).
Defined.

Lemma get_authority_dashboard_answers_iff_empty_witness :
  reachable st_registered /\
  reports_db st_registered = [] /\
  get_authority_dashboard st_registered
  = Ok (AuthorityDashboardResponse.mk (GlobalStats.mk 0 0 0 0) []
          [IssueBySeriousness.mk "Low" 0; IssueBySeriousness.mk "Moderate" 0;
           IssueBySeriousness.mk "High" 0; IssueBySeriousness.mk "Critical" 0]
          []).
Proof.
  split; [exact reachable_st_registered|]. split; [reflexivity|].
  exact (proj2 (get_authority_dashboard_answers_iff_empty st_registered
                  reachable_st_registered) eq_refl).
Defined.

Lemma curated_ready : Forall dashboard_ready (reports_db st_curated).
Proof.
  constructor; [|constructor].
  split; [by eexists|]. split; [by eexists|]. split; [by eexists|].
  split; [|right; by eexists].
  apply list_elem_of_In. right. right. left. reflexivity.
Defined.

Lemma get_authority_dashboard_ready_witness :
  Forall dashboard_ready (reports_db st_curated) /\
  get_authority_dashboard st_curated
  = Ok (AuthorityDashboardResponse.mk (GlobalStats.mk 1 1 0 1)
          [IssueByCategory.mk "Roads" 1]
          [IssueBySeriousness.mk "Low" 0; IssueBySeriousness.mk "Moderate" 0;
           IssueBySeriousness.mk "High" 1; IssueBySeriousness.mk "Critical" 0]
          [IssueManagementItem.mk 1 "Pothole" "Roads" "2024-05-01" "High"
             "Resolved"]).
Proof.
  split; [exact curated_ready|].
  exact (get_authority_dashboard_ready st_curated curated_ready).
Defined.

Lemma severe_unknown : ~ known_seriousness severe_pothole.
Proof.
  intros H. apply known_seriousness_cases in H.
  destruct H as [E|[E|[E|E]]]; discriminate E.
Defined.

Lemma pothole_known : Forall known_seriousness [Report.dict pothole].
Proof.
  constructor; [|constructor].
  apply list_elem_of_In. right. left. reflexivity.
Defined.

Lemma issues_by_seriousness_unknown_label_witness :
  Forall known_seriousness [Report.dict pothole] /\
  ~ known_seriousness severe_pothole /\
  issues_by_seriousness [Report.dict pothole; severe_pothole]
    = Raise (KeyError (PStr "Severe")).
Proof.
  split; [exact pothole_known|]. split; [exact severe_unknown|].
  exact (issues_by_seriousness_unknown_label [Report.dict pothole] []
           severe_pothole pothole_known severe_unknown).
Defined.

Lemma curated_keys : Forall (has_keys report_keys) (reports_db st_curated).
Proof. constructor; [|constructor]. repeat constructor; by eexists. Defined.

Lemma get_user_dashboard_notifications_witness :
  Forall (has_keys report_keys) (reports_db st_curated) /\
  get_user_dashboard "a@x.com" st_curated
    = Ok (user_dashboard_of [curated_pothole]) /\
  UserDashboardResponse.notifications (user_dashboard_of [curated_pothole])
    = ["Your report 'Pothole' has been marked as resolved."] /\
  UserStats.resolvedReports
    (UserDashboardResponse.userStats (user_dashboard_of [curated_pothole]))
    = 1.
Proof.
  split; [exact curated_keys|]. split; [reflexivity|].
  destruct (get_user_dashboard_notifications "a@x.com" st_curated
              (user_dashboard_of [curated_pothole]) curated_keys eq_refl)
    as (Hn & Hc & _).
  split; [exact Hn|]. symmetry. exact Hc.
Defined.

Lemma later_st_registered_st_flood : later st_registered st_flood.
Proof.
  eapply rtc_l; [apply (step_report pothole)|].
  eapply rtc_l; [apply (step_report flood)|]. apply rtc_refl.
Defined.

Lemma login_survives_later_requests_witness :
  reachable st_registered /\
  User.dict alice ∈ users_db st_registered /\
  later st_registered st_flood /\
  login_user (UserLogin.mk "a@x.com" "p") st_flood
    = Ok (login_response alice).
Proof.
  split; [exact reachable_st_registered|].
  split; [exact alice_in_st_registered|].
  split; [exact later_st_registered_st_flood|].
  exact (login_survives_later_requests alice st_registered st_flood
           reachable_st_registered alice_in_st_registered
           later_st_registered_st_flood).
Defined.

Lemma issues_by_category_tally_witness :
  forallb is_str
    (map category_label
       [Report.dict pothole; uncategorised_flood; Report.dict pothole])
    = true /\
  issues_by_category
    [Report.dict pothole; uncategorised_flood; Report.dict pothole]
    = Ok [IssueByCategory.mk "Roads" 2; IssueByCategory.mk "Other" 1].
Proof.
  split; [reflexivity|].
  exact (proj1 (issues_by_category_tally
                  [Report.dict pothole; uncategorised_flood;
                   Report.dict pothole] eq_refl)).
Defined.

Lemma get_all_reports_summaries_witness :
  Forall (has_keys report_keys) (reports_db st_curated) /\
  forallb summary_ok (reports_db st_curated) = true /\
  exists out,
    get_all_reports st_curated = Ok out /\
    length out = length (reports_db st_curated) /\
    forall (i : nat) d, reports_db st_curated !! i = Some d ->
      exists o, out !! i = Some o /\
        ReportOut.id o = Z.of_nat i + 1 /\
        d !! "issue" = Some (PStr (ReportOut.title o)) /\
        PStr (ReportOut.seriousness o)
          = default (PStr "Moderate") (d !! "seriousness").
Proof.
  split; [exact curated_keys|]. split; [reflexivity|].
  exact (get_all_reports_summaries st_curated curated_keys eq_refl).
Defined.

Lemma get_user_dashboard_counts_witness :
  Forall (has_keys report_keys) (reports_db st_curated) /\
  forallb history_ok
    (List.filter (email_matches "a@x.com") (reports_db st_curated)) = true /\
  exists resp,
    get_user_dashboard "a@x.com" st_curated = Ok resp /\
    UserStats.totalReports (UserDashboardResponse.userStats resp) = 1 /\
    UserStats.resolvedReports (UserDashboardResponse.userStats resp) = 1 /\
    UserStats.unresolvedReports (UserDashboardResponse.userStats resp) = 0.
Proof.
  split; [exact curated_keys|]. split; [reflexivity|].
  destruct (get_user_dashboard_counts "a@x.com" st_curated curated_keys
              eq_refl) as (resp & Hresp & Ht & Hres & Hun & _).
  exists resp. split; [exact Hresp|]. split; [exact Ht|].
  split; [exact Hres|]. rw Hun Ht Hres. reflexivity.
Defined.
